(** * Code Nexus: polymorphic streams and the three-stage pipeline

    A shallow embedding of [ex1/data_stream.py] and [ex2/nexus_pipeline.py]
    and the properties their specification states about them.

    Python objects are embedded as the inductive type [pyval]; integers are
    unbounded ([Z]), text is [string], a [dict] with string keys is an
    association list in insertion order, the data map of the stream
    processor is a [gmap].  Exceptions and [print] are explicit: a
    computation that may raise has type [exc A], one that may also print has
    type [IO A]; a stage, being any object, may raise what [except
    Exception] does not catch.  The conversion of an integer to text fails
    above the interpreter's limit of 4300 digits.  Float arithmetic, the rendering of floats and of quoted
    strings and the case mapping of text belong to the interpreter, not to
    the program; they are an interface ([Builtins]) over which every
    definition and theorem is generic. *)

From Stdlib Require Import ZArith List String Ascii DecimalString Lia.
From stdpp Require Import gmap strings list fin_maps.

Open Scope string_scope.
Open Scope Z_scope.

(** ** Interpreter built-ins used by the program *)

(** What the program asks of the interpreter without defining it: the
    binary64 operations behind [+], [/], [abs] and the comparisons with an
    [int], the text of a float under [str] and under the format [.1f], the
    quoted form of a string inside a container, and [str.lower].
    [None] stands for [OverflowError] in the two conversions, and for an
    unordered comparison (a NaN) in [float_compare_int]. *)
Class Builtins : Type := {
  float : Type;
  float_of_int : Z -> option float;
  float_add : float -> float -> float;
  float_div : float -> float -> float;
  int_truediv : Z -> Z -> option float;
  float_abs : float -> float;
  float_compare_int : float -> Z -> option comparison;
  float_repr : float -> string;
  float_format_1f : float -> string;
  str_repr : string -> string;
  str_lower : string -> string
}.

(** ** Exceptions and output *)

(** An ordinary exception, as the interpreter's own operations raise them:
    an instance of a subclass of [Exception], with its class name and the
    text [str(e)] yields. *)
Record Exception : Type := mkException {
  exc_class : string;
  exc_str : string
}.

Definition ValueError (msg : string) : Exception := mkException "ValueError" msg.
Definition TypeError (msg : string) : Exception := mkException "TypeError" msg.
Definition OverflowError (msg : string) : Exception := mkException "OverflowError" msg.
Definition ZeroDivisionError (msg : string) : Exception :=
  mkException "ZeroDivisionError" msg.

(** A computation that returns ([inr]) or raises ([inl]). *)
Definition exc (A : Type) : Type := (Exception + A)%type.

Module Exc.
Definition ret {A} (a : A) : exc A := inr a.
Definition raise {A} (e : Exception) : exc A := inl e.
Definition bind {A B} (m : exc A) (k : A -> exc B) : exc B :=
  match m with
  | inl e => inl e
  | inr a => k a
  end.
(** [try: m except Exception as e: return h e], at the end of a function
    whose body is [m]. *)
Definition try_return {A} (m : exc A) (h : Exception -> A) : A :=
  match m with
  | inl e => h e
  | inr a => a
  end.
End Exc.

(** What the [process] method of a stage, which is any object, can raise.
    Besides the ordinary exceptions there are the instances of [Exception]
    whose [__str__] raises in its turn, and the exceptions that are not
    instances of [Exception] ([KeyboardInterrupt], [SystemExit],
    [GeneratorExit]), which a clause [except Exception] lets through. *)
Inductive raised : Type :=
| Ordinary (e : Exception)
| Unprintable (class : string) (fault : raised)
| Exiting (class : string) (text : string).

(** [isinstance(r, Exception)] *)
Definition isinstance_Exception (r : raised) : bool :=
  match r with
  | Ordinary _ | Unprintable _ _ => true
  | Exiting _ _ => false
  end.

(** A computation that prints to standard output and then returns or raises:
    the texts printed, one per call of [print] and in order, and the
    outcome. *)
Definition IO (A : Type) : Type := (list string * (raised + A))%type.

Module Io.
Definition ret {A} (a : A) : IO A := ([], inr a).
Definition raise {A} (e : Exception) : IO A := ([], inl (Ordinary e)).
(** A computation that prints nothing, run where printing is possible. *)
Definition lift {A} (m : exc A) : IO A :=
  match m with
  | inl e => ([], inl (Ordinary e))
  | inr a => ([], inr a)
  end.
(** [str(r)] of a raised object. *)
Definition str_of (r : raised) : IO string :=
  match r with
  | Ordinary e => ([], inr (exc_str e))
  | Unprintable _ fault => ([], inl fault)
  | Exiting _ text => ([], inr text)
  end.
Definition print (line : string) : IO unit := ([line], inr tt).
Definition bind {A B} (m : IO A) (k : A -> IO B) : IO B :=
  match m with
  | (out, inl e) => (out, inl e)
  | (out, inr a) => let (out', r) := k a in ((out ++ out')%list, r)
  end.
(** [try: m except Exception as e: h e].  What is raised and is not an
    instance of [Exception] is not caught, and what the handler raises is
    raised by the statement. *)
Definition try_except {A} (m : IO A) (h : raised -> IO A) : IO A :=
  match m with
  | (out, inl r) =>
      if isinstance_Exception r
      then let (out', x) := h r in ((out ++ out')%list, x)
      else (out, inl r)
  | (out, inr a) => (out, inr a)
  end.
Definition stdout {A} (m : IO A) : list string := fst m.
End Io.

Declare Scope exc_scope.
Delimit Scope exc_scope with exc.
Notation "'do' x <- m ; k" := (Exc.bind m (fun x => k))
  (at level 10, x name, m at level 100, k at level 200) : exc_scope.

Declare Scope io_scope.
Delimit Scope io_scope with io.
Notation "'do' x <- m ; k" := (Io.bind m (fun x => k))
  (at level 10, x name, m at level 100, k at level 200) : io_scope.

(** ** Text *)

(** The decimal text of an integer: [str(n)] for an [int] the interpreter
    converts, as the lengths and indices the program renders all are. *)
Definition int_str (z : Z) : string := NilEmpty.string_of_int (Z.to_int z).

(** The interpreter converts no [int] of more than 4300 decimal digits to
    text ([sys.int_max_str_digits], at its default): the least such
    integer. *)
Definition int_str_bound : Z := Eval vm_compute in 10 ^ 4300.

Definition digits_exceeded (z : Z) : bool := int_str_bound <=? Z.abs z.

Definition digit_limit_error : Exception :=
  ValueError ("Exceeds the limit (4300 digits) for integer string conversion; " +:+
              "use sys.set_int_max_str_digits() to increase the limit").

(** [str(n)] and [repr(n)] of an arbitrary [int]. *)
Definition str_of_int (z : Z) : exc string :=
  if digits_exceeded z then Exc.raise digit_limit_error else Exc.ret (int_str z).

(** [needle in hay] on strings. *)
Fixpoint str_contains (needle hay : string) : bool :=
  String.prefix needle hay ||
  match hay with
  | EmptyString => false
  | String _ hay' => str_contains needle hay'
  end.

(** [s.split(sep)] for a one-character separator. *)
Fixpoint str_split (sep : ascii) (s : string) : list string :=
  match s with
  | EmptyString => [EmptyString]
  | String c s' =>
      if Ascii.eqb c sep then EmptyString :: str_split sep s'
      else match str_split sep s' with
           | [] => [String c EmptyString]
           | field :: fields => String c field :: fields
           end
  end.

(** ** Python values *)

Section Values.
Context `{B : Builtins}.

#[warnings="-register-all"]
Inductive pyval : Type :=
| VNone
| VBool (b : bool)
| VInt (z : Z)
| VFloat (f : float)
| VStr (s : string)
| VList (items : list pyval)
| VDict (fields : list (string * pyval)).

(** [repr(v)].  The items of a container are rendered from left to right,
    and what the first one that fails raises is raised. *)
Fixpoint py_repr (v : pyval) : exc string :=
  match v with
  | VNone => Exc.ret "None"
  | VBool true => Exc.ret "True"
  | VBool false => Exc.ret "False"
  | VInt z => str_of_int z
  | VFloat f => Exc.ret (float_repr f)
  | VStr s => Exc.ret (str_repr s)
  | VList items =>
      Exc.bind
        ((fix repr_items (todo : list pyval) : exc (list string) :=
            match todo with
            | [] => Exc.ret []
            | x :: rest =>
                Exc.bind (py_repr x) (fun text =>
                Exc.bind (repr_items rest) (fun texts =>
                Exc.ret (text :: texts)))
            end) items)
        (fun texts => Exc.ret ("[" +:+ String.concat ", " texts +:+ "]"))
  | VDict fields =>
      Exc.bind
        ((fix repr_fields (todo : list (string * pyval)) : exc (list string) :=
            match todo with
            | [] => Exc.ret []
            | kv :: rest =>
                Exc.bind (py_repr (snd kv)) (fun text =>
                Exc.bind (repr_fields rest) (fun texts =>
                Exc.ret ((str_repr (fst kv) +:+ ": " +:+ text) :: texts)))
            end) fields)
        (fun texts => Exc.ret ("{" +:+ String.concat ", " texts +:+ "}"))
  end.

(** [str(v)], which is also what an f-string field [{v}] renders. *)
Definition py_str (v : pyval) : exc string :=
  match v with
  | VStr s => Exc.ret s
  | _ => py_repr v
  end.

(** [d.get(key)] for a string key: the value, or [None]. *)
Fixpoint dict_get (fields : list (string * pyval)) (key : string) : pyval :=
  match fields with
  | [] => VNone
  | (k, v) :: rest => if String.eqb k key then v else dict_get rest key
  end.

(** The numbers: what [isinstance(x, (int, float))] accepts.  A [bool] is
    an [int] (0 or 1). *)
Inductive num : Type :=
| NInt (z : Z)
| NFloat (f : float).

Definition as_num (v : pyval) : option num :=
  match v with
  | VBool b => Some (NInt (Z.b2z b))
  | VInt z => Some (NInt z)
  | VFloat f => Some (NFloat f)
  | _ => None
  end.

Definition isinstance_num (v : pyval) : bool :=
  match v with
  | VBool _ | VInt _ | VFloat _ => true
  | _ => false
  end.

Definition isinstance_str (v : pyval) : bool :=
  match v with
  | VStr _ => true
  | _ => false
  end.

Definition int_too_large : Exception :=
  OverflowError "int too large to convert to float".

(** [a + b] on numbers: exact on integers; an integer meeting a float is
    converted first, which raises when it is out of the float range. *)
Definition num_add (a b : num) : exc num :=
  match a, b with
  | NInt x, NInt y => inr (NInt (x + y))
  | NInt x, NFloat g =>
      match float_of_int x with
      | Some f => inr (NFloat (float_add f g))
      | None => inl int_too_large
      end
  | NFloat f, NInt y =>
      match float_of_int y with
      | Some g => inr (NFloat (float_add f g))
      | None => inl int_too_large
      end
  | NFloat f, NFloat g => inr (NFloat (float_add f g))
  end.

(** [sum(items)]: starts from the integer 0 and adds the items from left
    to right.  On integers the result is exact; how the interpreter rounds
    a run of floats is behind [float_add]. *)
Fixpoint sum_from (acc : num) (items : list pyval) : exc num :=
  match items with
  | [] => inr acc
  | x :: rest =>
      match as_num x with
      | Some n =>
          match num_add acc n with
          | inr acc' => sum_from acc' rest
          | inl e => inl e
          end
      | None => inl (TypeError "unsupported operand type(s) for +")
      end
  end.

Definition py_sum (items : list pyval) : exc num := sum_from (NInt 0) items.

(** [total / count] for an integer [count]: true division, a float. *)
Definition num_truediv (total : num) (count : Z) : exc num :=
  match total with
  | NInt t =>
      if count =? 0 then inl (ZeroDivisionError "division by zero")
      else match int_truediv t count with
           | Some q => inr (NFloat q)
           | None =>
               inl (OverflowError "integer division result too large for a float")
           end
  | NFloat f =>
      match float_of_int count with
      | None => inl int_too_large
      | Some d =>
          if count =? 0 then inl (ZeroDivisionError "float division by zero")
          else inr (NFloat (float_div f d))
      end
  end.

(** The order of a number and an integer constant; [None] when unordered. *)
Definition num_compare_int (a : num) (k : Z) : option comparison :=
  match a with
  | NInt z => Some (z ?= k)
  | NFloat f => float_compare_int f k
  end.

Definition num_gt (a : num) (k : Z) : bool :=
  match num_compare_int a k with Some Gt => true | _ => false end.
Definition num_lt (a : num) (k : Z) : bool :=
  match num_compare_int a k with Some Lt => true | _ => false end.
Definition num_ge (a : num) (k : Z) : bool :=
  match num_compare_int a k with Some Gt | Some Eq => true | _ => false end.

Definition num_abs (a : num) : num :=
  match a with
  | NInt z => NInt (Z.abs z)
  | NFloat f => NFloat (float_abs f)
  end.

(** The text of a number whose integers the interpreter converts. *)
Definition num_str (a : num) : string :=
  match a with
  | NInt z => int_str z
  | NFloat f => float_repr f
  end.

(** [str(a)] of an arbitrary number, which an f-string field [{a}] renders. *)
Definition str_of_num (a : num) : exc string :=
  match a with
  | NInt z => str_of_int z
  | NFloat f => Exc.ret (float_repr f)
  end.

(** [f"{a:.1f}"] of a float. *)
Definition num_format_1f (a : num) : exc string :=
  match a with
  | NFloat f => inr (float_format_1f f)
  | NInt z =>
      match float_of_int z with
      | Some f => inr (float_format_1f f)
      | None => inl int_too_large
      end
  end.
End Values.

(** ** ex1/data_stream.py *)

(** The concrete subclasses of the abstract class [DataStream]. *)
Inductive stream_class : Type := Sensor | Transaction | Event.

(** [criteria == "High-priority"] for an optional criterion. *)
Definition is_high_priority (criteria : option string) : bool :=
  match criteria with
  | Some c => String.eqb c "High-priority"
  | None => false
  end.

Module DataStream.
Section DataStream.
Context `{B : Builtins}.

(** A stream object: its identifier and the class it was created from. *)
Record t : Type := new {
  stream_id : string;
  class_of : stream_class
}.

Definition stream_type (self : t) : string :=
  match class_of self with
  | Sensor => "Environmental Data"
  | Transaction => "Financial Data"
  | Event => "System Events"
  end.

(** The base-class method, which every subclass here overrides. *)
Definition filter_data (data_batch : list pyval) (criteria : option string)
  : list pyval :=
  match criteria with
  | None => data_batch
  | Some _ => data_batch
  end.

Definition get_stats (self : t) : list (string * pyval) :=
  [("id", VStr (stream_id self)); ("type", VStr (stream_type self))].
End DataStream.
End DataStream.

Module SensorStream.
Section SensorStream.
Context `{B : Builtins}.

(** The body of the [try] block of [process_batch]. *)
Definition process_batch_try (data_batch : list pyval) : exc string :=
  match data_batch with
  | [] => Exc.ret "No data processed"
  | _ =>
      let valid_data := List.filter isinstance_num data_batch in
      let count := Z.of_nat (length valid_data) in
      if count =? 0 then Exc.ret "No valid numeric data"
      else
        (do total <- py_sum valid_data;
         do avg <- num_truediv total count;
         do avg_text <- num_format_1f avg;
         Exc.ret ("Sensor data: " +:+ int_str count +:+
                  " readings processed, avg temp: " +:+ avg_text +:+ "°C"))%exc
  end.

Definition process_batch (data_batch : list pyval) : string :=
  Exc.try_return (process_batch_try data_batch)
    (fun e => "Error processing sensor batch: " +:+ exc_str e).

(** [isinstance(x, (int, float)) and (x > 50 or x < 0)] *)
Definition high_priority (x : pyval) : bool :=
  match as_num x with
  | Some n => num_gt n 50 || num_lt n 0
  | None => false
  end.

Definition filter_data (data_batch : list pyval) (criteria : option string)
  : list pyval :=
  if is_high_priority criteria then List.filter high_priority data_batch
  else data_batch.
End SensorStream.
End SensorStream.

Module TransactionStream.
Section TransactionStream.
Context `{B : Builtins}.

Definition process_batch_try (data_batch : list pyval) : exc string :=
  let valid_data := List.filter isinstance_num data_batch in
  let count := Z.of_nat (length valid_data) in
  (do net_flow <- py_sum valid_data;
   let sign := if num_ge net_flow 0 then "+" else EmptyString in
   do net_flow_text <- str_of_num net_flow;
   Exc.ret ("Transaction data: " +:+ int_str count +:+
            " operations, net flow: " +:+ sign +:+ net_flow_text +:+
            " units"))%exc.

Definition process_batch (data_batch : list pyval) : string :=
  Exc.try_return (process_batch_try data_batch)
    (fun e => "Error processing transaction batch: " +:+ exc_str e).

(** [isinstance(x, (int, float)) and abs(x) >= 100] *)
Definition high_priority (x : pyval) : bool :=
  match as_num x with
  | Some n => num_ge (num_abs n) 100
  | None => false
  end.

Definition filter_data (data_batch : list pyval) (criteria : option string)
  : list pyval :=
  if is_high_priority criteria then List.filter high_priority data_batch
  else data_batch.
End TransactionStream.
End TransactionStream.

Module EventStream.
Section EventStream.
Context `{B : Builtins}.

(** [isinstance(x, str) and "error" in x.lower()] *)
Definition is_error (x : pyval) : bool :=
  match x with
  | VStr s => str_contains "error" (str_lower s)
  | _ => false
  end.

Definition process_batch_try (data_batch : list pyval) : exc string :=
  let count := Z.of_nat (length data_batch) in
  let errors := Z.of_nat (length (List.filter is_error data_batch)) in
  Exc.ret ("Event data: " +:+ int_str count +:+ " events, " +:+
           int_str errors +:+ " error detected").

Definition process_batch (data_batch : list pyval) : string :=
  Exc.try_return (process_batch_try data_batch)
    (fun e => "Error processing event batch: " +:+ exc_str e).

Definition filter_data (data_batch : list pyval) (criteria : option string)
  : list pyval :=
  if is_high_priority criteria then List.filter is_error data_batch
  else data_batch.
End EventStream.
End EventStream.

Section MethodResolution.
Context `{B : Builtins}.

(** [stream.process_batch(data)]: the method of the object's class. *)
Definition process_batch (stream : DataStream.t) (data_batch : list pyval)
  : string :=
  match DataStream.class_of stream with
  | Sensor => SensorStream.process_batch data_batch
  | Transaction => TransactionStream.process_batch data_batch
  | Event => EventStream.process_batch data_batch
  end.

(** [stream.filter_data(data, criteria)]: the method of the object's class. *)
Definition filter_data (stream : DataStream.t) (data_batch : list pyval)
  (criteria : option string) : list pyval :=
  match DataStream.class_of stream with
  | Sensor => SensorStream.filter_data data_batch criteria
  | Transaction => TransactionStream.filter_data data_batch criteria
  | Event => EventStream.filter_data data_batch criteria
  end.
End MethodResolution.

Module StreamProcessor.
Section StreamProcessor.
Context `{B : Builtins}.

Record t : Type := mk { streams : list DataStream.t }.

Definition new : t := mk [].

Definition add_stream (self : t) (stream : DataStream.t) : t :=
  mk (streams self ++ [stream])%list.

(** The [for stream in self.streams] loop over the streams still to visit. *)
Fixpoint process_streams_loop (todo : list DataStream.t)
  (data_map : gmap string (list pyval)) : IO unit :=
  match todo with
  | [] => Io.ret tt
  | stream :: rest =>
      (do _ <- match data_map !! DataStream.stream_id stream with
               | Some data => Io.print (process_batch stream data)
               | None => Io.ret tt
               end;
       process_streams_loop rest data_map)%io
  end.

Definition process_streams (self : t) (data_map : gmap string (list pyval))
  : IO unit :=
  process_streams_loop (streams self) data_map.
End StreamProcessor.
End StreamProcessor.

(** ** ex2/nexus_pipeline.py *)

(** The double-quote character, as a one-character string. *)
Definition dquote : string := String "034"%char EmptyString.

Module ProcessingStage.
Section ProcessingStage.
Context `{B : Builtins}.

(** The protocol: any object with a [process] method.  The method may print
    and may raise. *)
Record t : Type := mk { process : pyval -> IO pyval }.
End ProcessingStage.
End ProcessingStage.

Module InputStage.
Section InputStage.
Context `{B : Builtins}.

Definition process (data : pyval) : IO pyval :=
  (do _ <- match data with
           | VDict fields =>
               do sensor <- Io.lift (py_str (dict_get fields "sensor"));
               let s_val := dquote +:+ "sensor" +:+ dquote +:+ ": " +:+ dquote +:+
                            sensor +:+ dquote in
               do value <- Io.lift (py_str (dict_get fields "value"));
               let v_val := ", " +:+ dquote +:+ "value" +:+ dquote +:+ ": " +:+
                            value in
               do unit <- Io.lift (py_str (dict_get fields "unit"));
               let u_val := ", " +:+ dquote +:+ "unit" +:+ dquote +:+ ": " +:+ dquote +:+
                            unit +:+ dquote in
               let content := s_val +:+ v_val +:+ u_val in
               Io.print ("Input: {" +:+ content +:+ "}")
           | VStr text =>
               if str_contains "user" text
               then Io.print ("Input: " +:+ dquote +:+ text +:+ dquote)
               else Io.print ("Input: " +:+ text)
           | _ => Io.ret tt
           end;
   Io.ret data)%io.

Definition new : ProcessingStage.t := ProcessingStage.mk process.
End InputStage.
End InputStage.

Module TransformStage.
Section TransformStage.
Context `{B : Builtins}.

Definition process (data : pyval) : IO pyval :=
  match data with
  | VDict _ =>
      (do _ <- Io.print "Transform: Enriched with metadata and validation";
       Io.ret data)%io
  | VStr text =>
      if str_contains "," text
      then (do _ <- Io.print "Transform: Parsed and structured data";
            Io.ret (VList (map VStr (str_split ","%char text))))%io
      else (do _ <- Io.print "Transform: Aggregated and filtered";
            Io.ret data)%io
  | _ => Io.ret data
  end.

Definition new : ProcessingStage.t := ProcessingStage.mk process.
End TransformStage.
End TransformStage.

Module OutputStage.
Section OutputStage.
Context `{B : Builtins}.

Definition process (data : pyval) : IO pyval :=
  match data with
  | VDict fields =>
      let val := dict_get fields "value" in
      let unit := dict_get fields "unit" in
      (do val_text <- Io.lift (py_str val);
       do unit_text <- Io.lift (py_str unit);
       Io.ret (VStr ("Processed temperature reading: " +:+ val_text +:+ "°" +:+
                     unit_text +:+ " (Normal range)")))%io
  | VList items =>
      Io.ret (VStr ("User activity logged: " +:+
                    int_str (Z.of_nat (length items) - 2) +:+
                    " actions processed"))
  | VStr _ => Io.ret (VStr "Stream summary: 5 readings, avg: 22.1°C")
  | _ => (do text <- Io.lift (py_str data); Io.ret (VStr text))%io
  end.

Definition new : ProcessingStage.t := ProcessingStage.mk process.
End OutputStage.
End OutputStage.

Module ProcessingPipeline.
Section ProcessingPipeline.
Context `{B : Builtins}.

Record t : Type := mk {
  pipeline_id : string;
  stages : list ProcessingStage.t
}.

Definition new (pipeline_id : string) : t := mk pipeline_id [].

Definition add_stage (self : t) (stage : ProcessingStage.t) : t :=
  mk (pipeline_id self) (stages self ++ [stage])%list.

(** [isinstance(current_data, str) and "FAIL_TEST" in current_data] *)
Definition is_fail_test (current_data : pyval) : bool :=
  match current_data with
  | VStr text => str_contains "FAIL_TEST" text
  | _ => false
  end.

(** How one turn of the loop ends: it goes on with the new [current_data],
    or the function returns. *)
Inductive flow : Type :=
| Next (current_data : pyval)
| Return (result : pyval).

(** The [except] clause of the loop body: [str(e)] is evaluated first, and
    what it raises leaves the function. *)
Definition recover (i : Z) (e : raised) : IO flow :=
  (do e_text <- Io.str_of e;
   do _ <- Io.print ("Error detected in Stage " +:+ int_str i +:+ ": " +:+
                     e_text);
   do _ <- Io.print "Recovery initiated: Switching to backup processor";
   Io.ret (Return
     (VStr "Recovery successful: Pipeline restored, processing resumed")))%io.

(** One turn of the loop: the [try] statement for stage number [i]. *)
Definition turn (i : Z) (stage : ProcessingStage.t) (current_data : pyval)
  : IO flow :=
  Io.try_except
    (if (i =? 2) && is_fail_test current_data
     then Io.raise (ValueError "Invalid data format")
     else (do current_data' <- ProcessingStage.process stage current_data;
           Io.ret (Next current_data'))%io)
    (recover i).

(** The loop [for i, stage in enumerate(..., 1)] from stage number [i] on. *)
Fixpoint run_from (i : Z) (todo : list ProcessingStage.t) (current_data : pyval)
  : IO pyval :=
  match todo with
  | [] => Io.ret current_data
  | stage :: rest =>
      (do step <- turn i stage current_data;
       match step with
       | Next current_data' => run_from (i + 1) rest current_data'
       | Return result => Io.ret result
       end)%io
  end.

Definition run_pipeline (self : t) (data : pyval) : IO pyval :=
  run_from 1 (stages self) data.
End ProcessingPipeline.
End ProcessingPipeline.

Module JSONAdapter.
Section JSONAdapter.
Context `{B : Builtins}.
Definition process (self : ProcessingPipeline.t) (data : pyval) : IO pyval :=
  (do _ <- Io.print "Processing JSON data through pipeline...";
   ProcessingPipeline.run_pipeline self data)%io.
End JSONAdapter.
End JSONAdapter.

Module CSVAdapter.
Section CSVAdapter.
Context `{B : Builtins}.
Definition process (self : ProcessingPipeline.t) (data : pyval) : IO pyval :=
  (do _ <- Io.print "Processing CSV data through same pipeline...";
   ProcessingPipeline.run_pipeline self data)%io.
End CSVAdapter.
End CSVAdapter.

Module StreamAdapter.
Section StreamAdapter.
Context `{B : Builtins}.
Definition process (self : ProcessingPipeline.t) (data : pyval) : IO pyval :=
  (do _ <- Io.print "Processing Stream data through same pipeline...";
   ProcessingPipeline.run_pipeline self data)%io.
End StreamAdapter.
End StreamAdapter.

Module NexusManager.
Section NexusManager.
Context `{B : Builtins}.

Record t : Type := mk { pipelines : gmap string ProcessingPipeline.t }.

Definition new : IO t :=
  (do _ <- Io.print "Initializing Nexus Manager...";
   do _ <- Io.print ("Pipeline capacity: 1000 streams/second" +:+
                     String "010"%char EmptyString);
   Io.ret (mk ∅))%io.

Definition register_pipeline (self : t) (pipeline : ProcessingPipeline.t) : t :=
  mk (<[ProcessingPipeline.pipeline_id pipeline := pipeline]> (pipelines self)).
End NexusManager.
End NexusManager.

Section Demo.
Context `{B : Builtins}.

(** The pipeline the script builds: the three stages added in order. *)
Definition three_stage_pipeline (pipeline_id : string) : ProcessingPipeline.t :=
  ProcessingPipeline.add_stage
    (ProcessingPipeline.add_stage
       (ProcessingPipeline.add_stage (ProcessingPipeline.new pipeline_id)
          InputStage.new)
       TransformStage.new)
    OutputStage.new.




(** The value every recovered run returns. *)
Definition recovery_result : pyval :=
  VStr "Recovery successful: Pipeline restored, processing resumed".
End Demo.

(** ** The float-free fragment *)

(** [c.lower()] for one ASCII character. *)
Definition ascii_lower (c : ascii) : ascii :=
  let n := nat_of_ascii c in
  if (Nat.leb 65 n && Nat.leb n 90)%bool then ascii_of_nat (n + 32) else c.

Fixpoint ascii_str_lower (s : string) : string :=
  match s with
  | EmptyString => EmptyString
  | String c s' => String (ascii_lower c) (ascii_str_lower s')
  end.

(** The built-ins restricted to programs that hold no float object and whose
    text is plain ASCII without quotes: there [repr] of a string only adds
    single quotes and [lower] acts on the letters A to Z.  The model is
    executable at this instance. *)
#[export] Instance float_free : Builtins := {|
  float := Empty_set;
  float_of_int := fun _ => None;
  float_add := fun f _ => f;
  float_div := fun f _ => f;
  int_truediv := fun _ _ => None;
  float_abs := fun f => f;
  float_compare_int := fun _ _ => None;
  float_repr := fun f => match f with end;
  float_format_1f := fun f => match f with end;
  str_repr := fun s => "'" +:+ s +:+ "'";
  str_lower := ascii_str_lower
|}.

(** ** The specification's vocabulary *)

Section Specification.
Context `{B : Builtins}.

(** A numeric item lies outside the interval [0, 50]: below 0 or above 50. *)
Definition outside_0_50 (x : pyval) : Prop :=
  match x with
  | VBool b => Z.b2z b < 0 \/ 50 < Z.b2z b
  | VInt z => z < 0 \/ 50 < z
  | VFloat f =>
      float_compare_int f 50 = Some Gt \/ float_compare_int f 0 = Some Lt
  | _ => False
  end.

#[export] Instance outside_0_50_dec (x : pyval) : Decision (outside_0_50 x).
Proof. destruct x; simpl; apply _. Defined.

(** The valid numeric items of a batch. *)
Definition valid_items (data_batch : list pyval) : list pyval :=
  List.filter isinstance_num data_batch.

(** The no-data result of a sensor batch: one text for the empty batch, one
    for a batch without a numeric item. *)
Definition sensor_no_data (data_batch : list pyval) : string :=
  match data_batch with
  | [] => "No data processed"
  | _ => "No valid numeric data"
  end.

Definition is_float (x : pyval) : bool :=
  match x with
  | VFloat _ => true
  | _ => false
  end.

(** The integers among the items of a batch, a [bool] counting as 0 or 1. *)
Definition int_value (x : pyval) : option Z :=
  match x with
  | VBool b => Some (Z.b2z b)
  | VInt z => Some z
  | _ => None
  end.

Definition int_values (data_batch : list pyval) : list Z :=
  omap int_value data_batch.

(** The signed sum of a list of integers. *)
Definition signed_sum (zs : list Z) : Z := fold_right Z.add 0 zs.

(** A net flow with its sign explicit when it is not negative. *)
Definition signed_text (net_flow : Z) : string :=
  (if 0 <=? net_flow then "+" else EmptyString) +:+ int_str net_flow.

(** The summary of a transaction batch: a count and a rendered net flow. *)
Definition transaction_summary (count : Z) (net_flow_text : string) : string :=
  "Transaction data: " +:+ int_str count +:+ " operations, net flow: " +:+
  net_flow_text +:+ " units".

(** The results of the registered streams a data map has a batch for, in
    registration order. *)
Definition dispatched (streams : list DataStream.t)
  (data_map : gmap string (list pyval)) : list string :=
  omap (fun stream => process_batch stream <$>
                      data_map !! DataStream.stream_id stream) streams.

(** A rendered summary that reports the number of items of a list. *)
Definition reports_item_count (items : list pyval) (rendered : pyval) : Prop :=
  rendered = VStr ("User activity logged: " +:+
                   int_str (Z.of_nat (length items)) +:+ " actions processed").

(** The fault the pipeline injects: stage number 2 meeting the sentinel. *)
Definition fault_injected (i : Z) (current_data : pyval) : bool :=
  (i =? 2) && ProcessingPipeline.is_fail_test current_data.

(** The lines the [except] clause prints for stage [i] and exception [e]. *)
Definition recovery_lines (i : Z) (e : Exception) : list string :=
  ["Error detected in Stage " +:+ int_str i +:+ ": " +:+ exc_str e;
   "Recovery initiated: Switching to backup processor"].

(** [clean_run i stages data out result]: the stages, numbered from [i], run
    in order on [data] without a fault, each fed the value the one before it
    returned; they print [out] and the last one returns [result]. *)
Inductive clean_run : Z -> list ProcessingStage.t -> pyval -> list string ->
                      pyval -> Prop :=
| clean_done i data : clean_run i [] data [] data
| clean_step i stage rest data out data' out' result :
    fault_injected i data = false ->
    ProcessingStage.process stage data = (out, inr data') ->
    clean_run (i + 1) rest data' out' result ->
    clean_run i (stage :: rest) data (out ++ out')%list result.

End Specification.

(** ** ex0/stream_processor.py *)

(** The line feed, as a one-character string. *)
Definition newline : string := String "010"%char EmptyString.

(** [s.split(sep, 1)] for a one-character separator: the text before the
    first separator and the text after it, or the text alone. *)
Fixpoint str_split_once (sep : ascii) (s : string) : list string :=
  match s with
  | EmptyString => [EmptyString]
  | String c s' =>
      if Ascii.eqb c sep then [EmptyString; s']
      else match str_split_once sep s' with
           | [] => [String c EmptyString]
           | field :: fields => String c field :: fields
           end
  end.

(** [parts[i]] on a list of strings, for an index that is not negative. *)
Definition parts_index (parts : list string) (i : nat) : exc string :=
  match nth_error parts i with
  | Some part => Exc.ret part
  | None => Exc.raise (mkException "IndexError" "list index out of range")
  end.

Module DataProcessor.
Definition format_output (result : string) : string := "Output: " +:+ result.
End DataProcessor.

Module NumericProcessor.
Section NumericProcessor.
Context `{B : Builtins}.

Definition validate (data : pyval) : bool :=
  match data with
  | VList items => forallb isinstance_num items
  | _ => false
  end.

(** [process] has no [try]: what the arithmetic raises reaches the caller.
    The float literal [0.0] of the empty case is only rendered, as the text
    it has under [str].  The sum is rendered after the division, which has
    raised for an integer sum too long to be converted to text. *)
Definition process (data : pyval) : exc string :=
  if negb (validate data) then Exc.ret "Invalid data"
  else
    match data with
    | VList items =>
        let count := Z.of_nat (length items) in
        (do total <- py_sum items;
         do avg_text <- (if count >? 0
                         then (do avg <- num_truediv total count;
                               Exc.ret (num_str avg))
                         else Exc.ret "0.0");
         Exc.ret ("Processed " +:+ int_str count +:+ " numeric values, sum=" +:+
                  num_str total +:+ ", avg=" +:+ avg_text +:+ newline))%exc
    | _ => Exc.raise (TypeError "object has no len()")
    end.
End NumericProcessor.
End NumericProcessor.

Module LogProcessor.
Section LogProcessor.
Context `{B : Builtins}.

(** [s.strip()], the interpreter's removal of leading and trailing
    whitespace. *)
Variable str_strip : string -> string.

Definition validate (data : pyval) : bool :=
  match data with
  | VStr text => str_contains ":" text
  | _ => false
  end.

Definition process (data : pyval) : exc string :=
  if negb (validate data) then Exc.ret "Invalid data"
  else
    match data with
    | VStr text =>
        let parts := str_split_once ":"%char text in
        (do part0 <- parts_index parts 0;
         let level := str_strip part0 in
         do part1 <- parts_index parts 1;
         let message := str_strip part1 in
         let prefix := if str_contains "ERROR" level then "ALERT" else "INFO" in
         Exc.ret ("[" +:+ prefix +:+ "] " +:+ level +:+ " level detected: " +:+
                  message +:+ newline))%exc
    | _ => Exc.raise (TypeError "object has no attribute split")
    end.
End LogProcessor.
End LogProcessor.

(** [strip] on plain ASCII text, where whitespace is the characters 9 to
    13, 28 to 31 and the space: the instance of [str_strip] for the
    fragment [float_free] describes. *)
Definition ascii_is_space (c : ascii) : bool :=
  let n := nat_of_ascii c in
  (Nat.leb 9 n && Nat.leb n 13) || (Nat.leb 28 n && Nat.leb n 31) || Nat.eqb n 32.

Fixpoint ascii_lstrip (s : string) : string :=
  match s with
  | EmptyString => EmptyString
  | String c s' => if ascii_is_space c then ascii_lstrip s' else s
  end.

Fixpoint ascii_rstrip (s : string) : string :=
  match s with
  | EmptyString => EmptyString
  | String c s' =>
      match ascii_rstrip s' with
      | EmptyString => if ascii_is_space c then EmptyString else String c EmptyString
      | kept => String c kept
      end
  end.

Definition ascii_strip (s : string) : string := ascii_rstrip (ascii_lstrip s).

(** ** Further vocabulary *)

Section FurtherSpecification.
Context `{B : Builtins}.

(** A numeric item of absolute value 100 or more. *)
Definition magnitude_at_least_100 (x : pyval) : Prop :=
  match x with
  | VBool b => Z.b2z b <= -100 \/ 100 <= Z.b2z b
  | VInt z => z <= -100 \/ 100 <= z
  | VFloat f =>
      float_compare_int (float_abs f) 100 = Some Gt \/
      float_compare_int (float_abs f) 100 = Some Eq
  | _ => False
  end.

#[export] Instance magnitude_at_least_100_dec (x : pyval) :
  Decision (magnitude_at_least_100 x).
Proof. destruct x; simpl; apply _. Defined.

(** The items a stream of a class takes as valid: numbers for a sensor or a
    transaction stream, strings for an event stream. *)
Definition accepted_by (class : stream_class) (x : pyval) : bool :=
  match class with
  | Sensor | Transaction => isinstance_num x
  | Event => isinstance_str x
  end.

(** The number of occurrences of a character in a text. *)
Definition count_char (c : ascii) (text : string) : nat :=
  length (List.filter (Ascii.eqb c) (list_ascii_of_string text)).

(** A dict has no entry under a key. *)
Definition key_absent (key : string) (fields : list (string * pyval)) : Prop :=
  Forall (fun kv => fst kv <> key) fields.



(** Every exception the [process] method of a stage raises is an ordinary
    one: an instance of [Exception] whose [str] returns. *)
Definition raises_ordinary (stage : ProcessingStage.t) : Prop :=
  forall data out r,
    ProcessingStage.process stage data = (out, inl r) ->
    exists e, r = Ordinary e.
End FurtherSpecification.

(** ** Properties of the streams *)

Section StreamProperties.
Context `{B : Builtins}.

Lemma is_high_priority_spec (criteria : option string) :
  is_high_priority criteria = true <-> criteria = Some "High-priority".
Proof.
  destruct criteria as [c|]; simpl.
  - rewrite String.eqb_eq. split; congruence.
  - split; discriminate.
Qed.

(** Dividing by a zero count always raises: a [try] body that returns has not
    done it. *)
Lemma num_truediv_zero (total : num) :
  exists e, num_truediv total 0 = inl e.
Proof.
  destruct total as [t|f]; simpl.
  - eauto.
  - destruct (float_of_int 0); eauto.
Qed.

Lemma sensor_try_no_data (data_batch : list pyval) :
  valid_items data_batch = [] ->
  SensorStream.process_batch_try data_batch = inr (sensor_no_data data_batch).
Proof.
  intros Hvalid. unfold SensorStream.process_batch_try, sensor_no_data.
  destruct data_batch as [|x rest]; [reflexivity|].
  fold (valid_items (x :: rest)). rewrite Hvalid. reflexivity.
Qed.

Lemma sensor_result_no_data (data_batch : list pyval) :
  valid_items data_batch = [] ->
  SensorStream.process_batch data_batch = sensor_no_data data_batch.
Proof.
  intros Hvalid. unfold SensorStream.process_batch.
  rewrite sensor_try_no_data by assumption. reflexivity.
Qed.

(** C4: on a batch that is empty or has no valid numeric item, the [try]
    block of [SensorStream.process_batch] returns (it raises nothing, so it
    has not divided by the zero count, which would raise) and the result is
    a no-data string: "No data processed" for the empty batch, "No valid
    numeric data" otherwise. *)
Theorem sensor_no_data_result (data_batch : list pyval) :
  valid_items data_batch = [] ->
  SensorStream.process_batch_try data_batch = inr (sensor_no_data data_batch) /\
  SensorStream.process_batch data_batch = sensor_no_data data_batch /\
  (forall total,
     exists e, num_truediv total (Z.of_nat (length (valid_items data_batch))) = inl e) /\
  SensorStream.process_batch [] = "No data processed".
Proof.
  intros Hvalid. split; [|split; [|split]].
  - apply sensor_try_no_data. assumption.
  - apply sensor_result_no_data. assumption.
  - rewrite Hvalid. intros total. apply num_truediv_zero.
  - reflexivity.
Qed.

(** C10: on a batch with no valid numeric item (the empty batch included)
    [TransactionStream.process_batch] takes its one normal path: the count
    is 0, the sum of no items is the integer 0, the sign is "+", and the
    result is the ordinary summary, which is neither of the two no-data
    texts [SensorStream.process_batch] returns for the same batch. *)
Theorem transaction_no_data_is_zero_summary (data_batch : list pyval) :
  valid_items data_batch = [] ->
  TransactionStream.process_batch_try data_batch =
    inr (transaction_summary 0 (signed_text (signed_sum []))) /\
  TransactionStream.process_batch data_batch =
    "Transaction data: 0 operations, net flow: +0 units" /\
  SensorStream.process_batch data_batch = sensor_no_data data_batch /\
  TransactionStream.process_batch data_batch <> SensorStream.process_batch data_batch.
Proof.
  intros Hvalid.
  assert (Htry : TransactionStream.process_batch_try data_batch =
                 inr (transaction_summary 0 (signed_text (signed_sum [])))).
  { unfold TransactionStream.process_batch_try.
    fold (valid_items data_batch). rewrite Hvalid. reflexivity. }
  assert (Hres : TransactionStream.process_batch data_batch =
                 "Transaction data: 0 operations, net flow: +0 units").
  { unfold TransactionStream.process_batch. rewrite Htry. reflexivity. }
  pose proof (sensor_result_no_data data_batch Hvalid) as Hsensor.
  repeat split; try assumption.
  rewrite Hres, Hsensor. destruct data_batch; discriminate.
Qed.

(** C8: whatever the class of the stream, [filter_data] returns the batch it
    was given when the criterion is [None] or a string other than
    "High-priority". *)
Theorem filter_data_identity (stream : DataStream.t) (data_batch : list pyval)
  (criteria : option string) :
  criteria <> Some "High-priority" ->
  filter_data stream data_batch criteria = data_batch.
Proof.
  intros Hother.
  assert (Hflag : is_high_priority criteria = false).
  { destruct (is_high_priority criteria) eqn:E; [|reflexivity].
    apply is_high_priority_spec in E. contradiction. }
  unfold filter_data, SensorStream.filter_data, TransactionStream.filter_data,
    EventStream.filter_data.
  rewrite Hflag. destruct (DataStream.class_of stream); reflexivity.
Qed.

(** The test of the comprehension in [SensorStream.filter_data] decides
    "outside the interval". *)
Lemma high_priority_outside (x : pyval) :
  SensorStream.high_priority x = bool_decide (outside_0_50 x).
Proof.
  unfold SensorStream.high_priority.
  destruct x as [|b|z|f|s|items|fields]; simpl; try reflexivity.
  - destruct b; reflexivity.
  - unfold num_gt, num_lt; simpl.
    destruct (bool_decide (z < 0 \/ 50 < z)) eqn:E.
    + apply bool_decide_eq_true in E.
      destruct (Z.compare_spec z 50), (Z.compare_spec z 0); simpl; try reflexivity; lia.
    + apply bool_decide_eq_false in E.
      destruct (Z.compare_spec z 50), (Z.compare_spec z 0); simpl; try reflexivity; lia.
  - unfold num_gt, num_lt; simpl.
    destruct (float_compare_int f 50) as [[]|], (float_compare_int f 0) as [[]|];
      reflexivity.
Qed.

(** C6: with the criterion "High-priority", [SensorStream.filter_data] keeps
    exactly the numeric items outside the interval [0, 50], in the order of
    the batch; the bounds 0 and 50 are dropped; and
    [100, 20, 22, -10] gives [100, -10]. *)
Theorem sensor_filter_high_priority (data_batch : list pyval) :
  SensorStream.filter_data data_batch (Some "High-priority") =
    List.filter (fun x => bool_decide (outside_0_50 x)) data_batch /\
  (forall x, In x (SensorStream.filter_data data_batch (Some "High-priority")) <->
             In x data_batch /\ outside_0_50 x) /\
  sublist (SensorStream.filter_data data_batch (Some "High-priority")) data_batch /\
  SensorStream.filter_data [VInt 0; VInt 50] (Some "High-priority") = [] /\
  SensorStream.filter_data [VInt 100; VInt 20; VInt 22; VInt (-10)]
    (Some "High-priority") = [VInt 100; VInt (-10)].
Proof.
  assert (Heq : SensorStream.filter_data data_batch (Some "High-priority") =
                List.filter (fun x => bool_decide (outside_0_50 x)) data_batch).
  { unfold SensorStream.filter_data. simpl.
    apply List.filter_ext. intros x. apply high_priority_outside. }
  split; [exact Heq|]. rewrite Heq. split; [|split; [|split]].
  - intros x. rewrite List.filter_In, bool_decide_eq_true. reflexivity.
  - induction data_batch as [|y rest IH]; simpl.
    + constructor.
    + destruct (bool_decide (outside_0_50 y)).
      * apply sublist_skip. apply IH.
        unfold SensorStream.filter_data. simpl.
        apply List.filter_ext. intros x. apply high_priority_outside.
      * apply sublist_cons. apply IH.
        unfold SensorStream.filter_data. simpl.
        apply List.filter_ext. intros x. apply high_priority_outside.
  - reflexivity.
  - reflexivity.
Qed.

Lemma valid_items_cons (x : pyval) (rest : list pyval) :
  valid_items (x :: rest) =
  if isinstance_num x then x :: valid_items rest else valid_items rest.
Proof. reflexivity. Qed.

Lemma int_values_cons (x : pyval) (rest : list pyval) :
  int_values (x :: rest) =
  match int_value x with
  | Some z => z :: int_values rest
  | None => int_values rest
  end.
Proof. reflexivity. Qed.

Lemma signed_sum_cons (z : Z) (zs : list Z) :
  signed_sum (z :: zs) = z + signed_sum zs.
Proof. reflexivity. Qed.

(** Without float items the sum stays in the integers and is exact. *)
Lemma sum_from_ints (items : list pyval) (acc : Z) :
  existsb is_float items = false ->
  sum_from (NInt acc) (valid_items items) =
    inr (NInt (acc + signed_sum (int_values items))).
Proof.
  revert acc. induction items as [|x rest IH]; intros acc Hnofloat.
  - simpl. f_equal. f_equal. lia.
  - simpl in Hnofloat. apply orb_false_iff in Hnofloat as [Hx Hrest].
    rewrite valid_items_cons, int_values_cons.
    destruct x as [|b|z|f|s|l|d]; try discriminate Hx;
      cbn [isinstance_num int_value sum_from as_num num_add];
      rewrite ?signed_sum_cons, IH by assumption; f_equal; f_equal; lia.
Qed.

Lemma valid_items_length_ints (items : list pyval) :
  existsb is_float items = false ->
  length (valid_items items) = length (int_values items).
Proof.
  induction items as [|x rest IH]; intros Hnofloat; [reflexivity|].
  simpl in Hnofloat. apply orb_false_iff in Hnofloat as [Hx Hrest].
  rewrite valid_items_cons, int_values_cons.
  destruct x; try discriminate Hx; cbn [isinstance_num int_value length];
    rewrite IH by assumption; reflexivity.
Qed.

Lemma num_ge_int (z k : Z) : num_ge (NInt z) k = (k <=? z).
Proof.
  unfold num_ge; simpl. destruct (Z.compare_spec z k), (Z.leb_spec k z);
    try reflexivity; lia.
Qed.





Lemma dispatched_cons (stream : DataStream.t) (rest : list DataStream.t)
  (data_map : gmap string (list pyval)) :
  dispatched (stream :: rest) data_map =
  match data_map !! DataStream.stream_id stream with
  | Some data => process_batch stream data :: dispatched rest data_map
  | None => dispatched rest data_map
  end.
Proof.
  unfold dispatched. simpl.
  destruct (data_map !! DataStream.stream_id stream); reflexivity.
Qed.

Lemma process_streams_loop_dispatched (todo : list DataStream.t)
  (data_map : gmap string (list pyval)) :
  StreamProcessor.process_streams_loop todo data_map =
    (dispatched todo data_map, inr tt).
Proof.
  induction todo as [|stream rest IH]; [reflexivity|].
  rewrite dispatched_cons. cbn [StreamProcessor.process_streams_loop].
  rewrite IH.
  destruct (data_map !! DataStream.stream_id stream); reflexivity.
Qed.

Lemma dispatched_insert_unknown (streams : list DataStream.t)
  (data_map : gmap string (list pyval)) (key : string) (data : list pyval) :
  Forall (fun stream => DataStream.stream_id stream <> key) streams ->
  dispatched streams (<[key := data]> data_map) = dispatched streams data_map.
Proof.
  induction 1 as [|stream rest Hne _ IH]; [reflexivity|].
  rewrite !dispatched_cons, IH.
  rewrite lookup_insert_ne by congruence. reflexivity.
Qed.

(** C9: [StreamProcessor.process_streams] raises nothing and prints exactly
    the results of the registered streams whose identifier is a key of the
    data map, in registration order; a key that is the identifier of no
    registered stream changes nothing: with or without it the output and the
    outcome are the same. *)
Theorem process_streams_skips_unknown (self : StreamProcessor.t)
  (data_map : gmap string (list pyval)) :
  StreamProcessor.process_streams self data_map =
    (dispatched (StreamProcessor.streams self) data_map, inr tt) /\
  (forall line,
     In line (Io.stdout (StreamProcessor.process_streams self data_map)) ->
     exists stream data,
       In stream (StreamProcessor.streams self) /\
       data_map !! DataStream.stream_id stream = Some data /\
       line = process_batch stream data) /\
  (forall key data,
     Forall (fun stream => DataStream.stream_id stream <> key)
       (StreamProcessor.streams self) ->
     StreamProcessor.process_streams self (<[key := data]> data_map) =
       StreamProcessor.process_streams self data_map).
Proof.
  split; [|split].
  - apply process_streams_loop_dispatched.
  - intros line. unfold StreamProcessor.process_streams.
    rewrite process_streams_loop_dispatched. simpl.
    generalize (StreamProcessor.streams self) as streams.
    induction streams as [|stream rest IH]; [intros []|].
    rewrite dispatched_cons.
    destruct (data_map !! DataStream.stream_id stream) as [data|] eqn:Hlook.
    + intros [<- | Hin].
      * exists stream, data. simpl. auto.
      * destruct (IH Hin) as (stream' & data' & Hin' & Hlook' & Hline).
        exists stream', data'. simpl. auto.
    + intros Hin.
      destruct (IH Hin) as (stream' & data' & Hin' & Hlook' & Hline).
      exists stream', data'. simpl. auto.
  - intros key data Hunknown. unfold StreamProcessor.process_streams.
    rewrite !process_streams_loop_dispatched.
    rewrite dispatched_insert_unknown by assumption. reflexivity.
Qed.
End StreamProperties.

(** ** Properties of the pipeline *)

Section PipelineProperties.
Context `{B : Builtins}.

Import ProcessingPipeline.

(** *** Rendering *)


(** Rendering raises nothing but the error of the digit limit. *)
Lemma py_repr_raises (v : pyval) (e : Exception) :
  py_repr v = inl e -> e = digit_limit_error.
Proof.
  revert v e. fix IH 1. intros [| [|] |z|f|s|items|fields] e; simpl;
    try discriminate.
  - unfold str_of_int. destruct (digits_exceeded z); [|discriminate].
    intros [= <-]. reflexivity.
  - assert (Hitems : forall e',
      (fix repr_items (todo : list pyval) : exc (list string) :=
         match todo with
         | [] => Exc.ret []
         | x :: rest =>
             Exc.bind (py_repr x) (fun text =>
             Exc.bind (repr_items rest) (fun texts => Exc.ret (text :: texts)))
         end) items = inl e' -> e' = digit_limit_error).
    { induction items as [|x rest IHrest]; intros e'; [discriminate|].
      destruct (py_repr x) as [e0|text] eqn:Hx.
      - cbn [Exc.bind]. intros [= <-]. apply (IH x). exact Hx.
      - cbn [Exc.bind]. destruct (_ rest) as [e1|texts] eqn:Hrest.
        + intros [= <-]. apply IHrest. reflexivity.
        + discriminate. }
    destruct (_ items) as [e1|texts]; [|discriminate].
    intros [= <-]. apply Hitems. reflexivity.
  - assert (Hfields : forall e',
      (fix repr_fields (todo : list (string * pyval)) : exc (list string) :=
         match todo with
         | [] => Exc.ret []
         | kv :: rest =>
             Exc.bind (py_repr (snd kv)) (fun text =>
             Exc.bind (repr_fields rest) (fun texts =>
             Exc.ret ((str_repr (fst kv) +:+ ": " +:+ text) :: texts)))
         end) fields = inl e' -> e' = digit_limit_error).
    { induction fields as [|[k x] rest IHrest]; intros e'; [discriminate|].
      cbn [snd fst]. destruct (py_repr x) as [e0|text] eqn:Hx.
      - cbn [Exc.bind]. intros [= <-]. apply (IH x). exact Hx.
      - cbn [Exc.bind]. destruct (_ rest) as [e1|texts] eqn:Hrest.
        + intros [= <-]. apply IHrest. reflexivity.
        + discriminate. }
    destruct (_ fields) as [e1|texts]; [|discriminate].
    intros [= <-]. apply Hfields. reflexivity.
Qed.


Lemma py_str_raises (v : pyval) (e : Exception) :
  py_str v = inl e -> e = digit_limit_error.
Proof. destruct v; try apply py_repr_raises. discriminate. Qed.

(** [str(v)] either returns or raises the error of the digit limit. *)
Lemma py_str_outcome (v : pyval) :
  (exists text, py_str v = inr text) \/ py_str v = inl digit_limit_error.
Proof.
  destruct (py_str v) as [e|text] eqn:Hstr; [right|left; eauto].
  rewrite (py_str_raises _ _ Hstr). reflexivity.
Qed.


(** *** The three stages *)

Lemma input_stage_text (text : string) :
  exists out, InputStage.process (VStr text) = (out, inr (VStr text)).
Proof.
  unfold InputStage.process. simpl.
  destruct (str_contains "user" text); simpl; eauto.
Qed.

(** The Input stage returns its argument, or raises the error of the digit
    limit before it has printed anything. *)
Lemma input_stage_outcome (data : pyval) :
  (exists out, InputStage.process data = (out, inr data)) \/
  InputStage.process data = ([], inl (Ordinary digit_limit_error)).
Proof.
  unfold InputStage.process.
  destruct data as [| | | |text|items|fields]; try (left; simpl; eauto; fail).
  - left. apply input_stage_text.
  - destruct (py_str_outcome (dict_get fields "sensor")) as [[sensor ->]| ->];
      [|right; reflexivity].
    destruct (py_str_outcome (dict_get fields "value")) as [[value ->]| ->];
      [|right; reflexivity].
    destruct (py_str_outcome (dict_get fields "unit")) as [[unit ->]| ->];
      [|right; reflexivity].
    left. simpl. eauto.
Qed.


Lemma transform_stage_returns (data : pyval) :
  exists out data', TransformStage.process data = (out, inr data').
Proof.
  unfold TransformStage.process.
  destruct data as [| | | |text| |]; simpl; eauto.
  destruct (str_contains "," text); simpl; eauto.
Qed.



(** The Output stage prints nothing; it returns a text, or raises the error
    of the digit limit. *)
Lemma output_stage_outcome (data : pyval) :
  (exists text, OutputStage.process data = ([], inr (VStr text))) \/
  OutputStage.process data = ([], inl (Ordinary digit_limit_error)).
Proof.
  unfold OutputStage.process.
  destruct data as [|b|z|f|text|items|fields];
    try (left; simpl; eauto; fail).
  - left. destruct b; simpl; eauto.
  - destruct (py_str_outcome (VInt z)) as [[text ->]| ->];
      [left; simpl; eauto|right; reflexivity].
  - cbv zeta.
    destruct (py_str_outcome (dict_get fields "value")) as [[val ->]| ->];
      [|right; reflexivity].
    destruct (py_str_outcome (dict_get fields "unit")) as [[unit ->]| ->];
      [|right; reflexivity].
    left. simpl. eauto.
Qed.


(** The three stages of the script raise ordinary exceptions only. *)
Lemma script_stages_raise_ordinary :
  Forall raises_ordinary [InputStage.new; TransformStage.new; OutputStage.new].
Proof.
  repeat constructor; intros data out r; simpl.
  - destruct (input_stage_outcome data) as [[out' ->]| ->]; [discriminate|].
    intros [= _ <-]. eauto.
  - destruct (transform_stage_returns data) as (out' & data' & ->). discriminate.
  - destruct (output_stage_outcome data) as [[text ->]| ->]; [discriminate|].
    intros [= _ <-]. eauto.
Qed.

(** *** One turn of the loop *)

Lemma turn_clean i stage data out data' :
  fault_injected i data = false ->
  ProcessingStage.process stage data = (out, inr data') ->
  turn i stage data = (out, inr (Next data')).
Proof.
  unfold fault_injected, turn. intros -> Hstage.
  unfold Io.bind. rewrite Hstage. simpl. rewrite app_nil_r. reflexivity.
Qed.

Lemma turn_stage_raises i stage data out e :
  fault_injected i data = false ->
  ProcessingStage.process stage data = (out, inl (Ordinary e)) ->
  turn i stage data = ((out ++ recovery_lines i e)%list, inr (Return recovery_result)).
Proof.
  unfold fault_injected, turn. intros -> Hstage.
  unfold Io.bind at 1. rewrite Hstage. reflexivity.
Qed.

(** What is not an instance of [Exception] passes through the [try]. *)
Lemma turn_stage_exits i stage data out class text :
  fault_injected i data = false ->
  ProcessingStage.process stage data = (out, inl (Exiting class text)) ->
  turn i stage data = (out, inl (Exiting class text)).
Proof.
  unfold fault_injected, turn. intros -> Hstage.
  unfold Io.bind at 1. rewrite Hstage. reflexivity.
Qed.

(** What [str(e)] raises in the handler leaves the [try]. *)
Lemma turn_stage_unprintable i stage data out class fault :
  fault_injected i data = false ->
  ProcessingStage.process stage data = (out, inl (Unprintable class fault)) ->
  turn i stage data = (out, inl fault).
Proof.
  unfold fault_injected, turn. intros -> Hstage.
  unfold Io.bind at 1. rewrite Hstage. simpl. rewrite app_nil_r. reflexivity.
Qed.

Lemma turn_fault_injected i stage data :
  fault_injected i data = true ->
  turn i stage data =
    (recovery_lines i (ValueError "Invalid data format"), inr (Return recovery_result)).
Proof. unfold fault_injected, turn. intros ->. reflexivity. Qed.

(** A turn with a stage that raises ordinary exceptions only never raises:
    it goes on, or it returns the recovery result. *)
Lemma turn_outcome i stage data :
  raises_ordinary stage ->
  exists out,
    (exists data', turn i stage data = (out, inr (Next data')) /\
                   fault_injected i data = false /\
                   ProcessingStage.process stage data = (out, inr data')) \/
    turn i stage data = (out, inr (Return recovery_result)).
Proof.
  intros Hordinary.
  destruct (fault_injected i data) eqn:Hfault.
  - eexists. right. apply turn_fault_injected. assumption.
  - destruct (ProcessingStage.process stage data) as [out [r|data']] eqn:Hstage.
    + destruct (Hordinary _ _ _ Hstage) as [e ->].
      eexists. right. eapply turn_stage_raises; eassumption.
    + exists out. left. exists data'. split; [|split]; trivial.
      apply turn_clean; assumption.
Qed.

(** *** The loop *)

Lemma run_from_cons i stage rest data :
  run_from i (stage :: rest) data =
  Io.bind (turn i stage data)
    (fun step => match step with
                 | Next data' => run_from (i + 1) rest data'
                 | Return result => Io.ret result
                 end).
Proof. reflexivity. Qed.


(** After a clean prefix the loop goes on with the stages that remain. *)
Lemma run_from_after_clean i before rest data out current :
  clean_run i before data out current ->
  run_from i (before ++ rest) data =
    let (out', r) := run_from (i + Z.of_nat (length before)) rest current in
    ((out ++ out')%list, r).
Proof.
  induction 1 as [|i stage todo data out data' out' result Hfault Hstage _ IH].
  - simpl. rewrite Z.add_0_r. destruct (run_from i rest data). reflexivity.
  - rewrite <- app_comm_cons, run_from_cons, (turn_clean _ _ _ _ _ Hfault Hstage).
    unfold Io.bind. rewrite IH.
    replace (i + Z.of_nat (length (stage :: todo)))
      with (i + 1 + Z.of_nat (length todo)) by (simpl length; lia).
    destruct (run_from (i + 1 + Z.of_nat (length todo)) rest result) as [out'' r].
    rewrite app_assoc. reflexivity.
Qed.

(** With stages that raise ordinary exceptions only the loop never raises:
    either every stage ran clean, or the result is the recovery result. *)
Lemma run_from_outcome todo : forall i data,
  Forall raises_ordinary todo ->
  exists out result,
    run_from i todo data = (out, inr result) /\
    (clean_run i todo data out result \/ result = recovery_result).
Proof.
  induction todo as [|stage rest IH]; intros i data Hordinary.
  - exists [], data. split; [reflexivity|]. left. constructor.
  - inversion Hordinary as [|? ? Hstage_ordinary Hrest_ordinary]; subst.
    rewrite run_from_cons.
    destruct (turn_outcome i stage data Hstage_ordinary)
      as [out [(data' & Hturn & Hfault & Hstage)|Hturn]].
    + destruct (IH (i + 1) data' Hrest_ordinary) as (out' & result & Hrun & Hcase).
      exists (out ++ out')%list, result. split.
      * rewrite Hturn. unfold Io.bind. rewrite Hrun. reflexivity.
      * destruct Hcase as [Hclean|Hrec]; [left|right; assumption].
        econstructor; eassumption.
    + exists out, recovery_result. split; [|right; reflexivity].
      rewrite Hturn. unfold Io.bind. simpl. rewrite app_nil_r. reflexivity.
Qed.


(** C2: on the input "FAIL_TEST" the three-stage pipeline runs the Input
    stage, raises at stage number 2 and returns exactly the recovery result,
    after printing the Input line and the two recovery lines once.  The same
    holds whatever objects stand as second and third stage, so neither is
    executed, and the second is not tried again. *)
Theorem fail_test_recovers (pipeline_id : string) :
  run_pipeline (three_stage_pipeline pipeline_id) (VStr "FAIL_TEST") =
    (["Input: FAIL_TEST";
      "Error detected in Stage 2: Invalid data format";
      "Recovery initiated: Switching to backup processor"],
     inr (VStr "Recovery successful: Pipeline restored, processing resumed")) /\
  (forall stage : ProcessingStage.t,
     turn 2 stage (VStr "FAIL_TEST") =
       (recovery_lines 2 (ValueError "Invalid data format"),
        inr (Return recovery_result))) /\
  (forall second third : ProcessingStage.t,
     run_pipeline
       (ProcessingPipeline.mk pipeline_id [InputStage.new; second; third])
       (VStr "FAIL_TEST") =
     run_pipeline (three_stage_pipeline pipeline_id) (VStr "FAIL_TEST")).
Proof.
  split; [reflexivity|]. split.
  - intros stage. apply turn_fault_injected. reflexivity.
  - intros second third. reflexivity.
Qed.



(** The number of fields a split yields: one more than the separators. *)
Lemma str_split_length (sep : ascii) (text : string) :
  length (str_split sep text) =
  S (length (List.filter (Ascii.eqb sep) (list_ascii_of_string text))).
Proof.
  induction text as [|c text IH]; [reflexivity|].
  simpl. rewrite (Ascii.eqb_sym sep c).
  destruct (Ascii.eqb c sep).
  - simpl. rewrite IH. reflexivity.
  - destruct (str_split sep text); simpl in *; [discriminate|]. exact IH.
Qed.

(** C5, as the code has it: given a list, [OutputStage.process] renders the
    number of its items minus two; for the list Transform makes of a text
    with separators, this is the number of separators minus one. *)
Theorem output_stage_list_count (items : list pyval) :
  OutputStage.process (VList items) =
    Io.ret (VStr ("User activity logged: " +:+
                  int_str (Z.of_nat (length items) - 2) +:+
                  " actions processed")) /\
  (forall text,
     str_contains "," text = true ->
     exists fields,
       TransformStage.process (VStr text) =
         (["Transform: Parsed and structured data"], inr (VList fields)) /\
       Z.of_nat (length fields) - 2 =
         Z.of_nat (length (List.filter (Ascii.eqb ","%char)
                             (list_ascii_of_string text))) - 1).
Proof.
  split; [reflexivity|].
  intros text Hcomma. eexists. split.
  - unfold TransformStage.process. rewrite Hcomma. reflexivity.
  - rewrite length_map, str_split_length. lia.
Qed.
End PipelineProperties.

(** ** The theorems at concrete inputs *)

(** The batches and pipelines below are evaluated at [float_free]. *)



Lemma sensor_no_data_result_witness :
  SensorStream.process_batch [VStr "offline"; VNone] = "No valid numeric data".
Proof.
  apply (proj1 (proj2 (sensor_no_data_result [VStr "offline"; VNone] eq_refl))).
Defined.

Lemma transaction_no_data_is_zero_summary_witness :
  TransactionStream.process_batch [VStr "void"] =
    "Transaction data: 0 operations, net flow: +0 units".
Proof.
  apply (proj1 (proj2 (transaction_no_data_is_zero_summary [VStr "void"] eq_refl))).
Defined.

Lemma filter_data_identity_witness :
  filter_data (DataStream.new "TRANS_001" Transaction)
    [VInt 10; VInt 500; VInt 20] (Some "Low-priority") =
  [VInt 10; VInt 500; VInt 20].
Proof.
  apply (filter_data_identity (DataStream.new "TRANS_001" Transaction)
           [VInt 10; VInt 500; VInt 20] (Some "Low-priority")).
  discriminate.
Defined.


Lemma process_streams_skips_unknown_witness :
  StreamProcessor.process_streams
    (StreamProcessor.mk [DataStream.new "SENSOR_001" Sensor;
                         DataStream.new "TRANS_001" Transaction])
    (<["GHOST_404" := [VInt 1]]> (<["TRANS_001" := [VInt 10; VInt (-5)]]> ∅)) =
  StreamProcessor.process_streams
    (StreamProcessor.mk [DataStream.new "SENSOR_001" Sensor;
                         DataStream.new "TRANS_001" Transaction])
    (<["TRANS_001" := [VInt 10; VInt (-5)]]> ∅).
Proof.
  apply (proj2 (proj2 (process_streams_skips_unknown
                         (StreamProcessor.mk [DataStream.new "SENSOR_001" Sensor;
                                              DataStream.new "TRANS_001" Transaction])
                         (<["TRANS_001" := [VInt 10; VInt (-5)]]> ∅)))
               "GHOST_404" [VInt 1]).
  repeat constructor; discriminate.
Defined.




(** C5 as the specification words it fails: for the three fields of the
    script's delimited text the Output stage renders 1, not 3. *)
Lemma output_stage_item_count_counterexample :
  TransformStage.process (VStr "user, action, timestamp") =
    (["Transform: Parsed and structured data"],
     inr (VList [VStr "user"; VStr " action"; VStr " timestamp"])) /\
  OutputStage.process (VList [VStr "user"; VStr " action"; VStr " timestamp"]) =
    Io.ret (VStr "User activity logged: 1 actions processed") /\
  ~ reports_item_count [VStr "user"; VStr " action"; VStr " timestamp"]
      (VStr "User activity logged: 1 actions processed").
Proof.
  split; [reflexivity|]. split; [reflexivity|].
  unfold reports_item_count. discriminate.
Qed.

(** ** Further properties of the streams *)

Section FurtherStreamProperties.
Context `{B : Builtins}.

Lemma list_filter_idem {A} (p : A -> bool) (l : list A) :
  List.filter p (List.filter p l) = List.filter p l.
Proof.
  induction l as [|x l IH]; [reflexivity|].
  simpl. destruct (p x) eqn:Hp; [|exact IH].
  simpl. rewrite Hp, IH. reflexivity.
Qed.

Lemma list_filter_sublist {A} (p : A -> bool) (l : list A) :
  sublist (List.filter p l) l.
Proof.
  induction l as [|x l IH]; simpl.
  - constructor.
  - destruct (p x); [apply sublist_skip|apply sublist_cons]; exact IH.
Qed.

Lemma list_filter_forall {A} (p : A -> bool) (l : list A) :
  Forall (fun x => p x = true) (List.filter p l).
Proof.
  induction l as [|x l IH]; simpl; [constructor|].
  destruct (p x) eqn:Hp; [constructor; assumption|exact IH].
Qed.

Lemma transaction_high_priority_magnitude (x : pyval) :
  TransactionStream.high_priority x = bool_decide (magnitude_at_least_100 x).
Proof.
  unfold TransactionStream.high_priority.
  destruct x as [|b|z|f|s|items|fields]; simpl; try reflexivity.
  - destruct b; reflexivity.
  - rewrite num_ge_int.
    destruct (bool_decide (z <= -100 \/ 100 <= z)) eqn:E.
    + apply bool_decide_eq_true in E. apply Z.leb_le. lia.
    + apply bool_decide_eq_false in E. apply Z.leb_gt. lia.
  - unfold num_ge; simpl.
    destruct (float_compare_int (float_abs f) 100) as [[]|]; reflexivity.
Qed.

(** X1: with the criterion "High-priority", [TransactionStream.filter_data]
    keeps exactly the numeric items of absolute value 100 or more, in the
    order of the batch; among integers the bounds 100 and -100 are kept and
    99 and -99 are not, and a [bool] is never kept. *)
Theorem transaction_filter_high_priority (data_batch : list pyval) :
  TransactionStream.filter_data data_batch (Some "High-priority") =
    List.filter (fun x => bool_decide (magnitude_at_least_100 x)) data_batch /\
  (forall x,
     In x (TransactionStream.filter_data data_batch (Some "High-priority")) <->
     In x data_batch /\ magnitude_at_least_100 x) /\
  (forall z : Z,
     In (VInt z) (TransactionStream.filter_data data_batch (Some "High-priority")) <->
     In (VInt z) data_batch /\ 100 <= Z.abs z) /\
  (forall b : bool,
     ~ In (VBool b) (TransactionStream.filter_data data_batch (Some "High-priority"))).
Proof.
  assert (Heq : TransactionStream.filter_data data_batch (Some "High-priority") =
                List.filter (fun x => bool_decide (magnitude_at_least_100 x)) data_batch).
  { unfold TransactionStream.filter_data. simpl.
    apply List.filter_ext. intros x. apply transaction_high_priority_magnitude. }
  assert (Hin : forall x,
     In x (TransactionStream.filter_data data_batch (Some "High-priority")) <->
     In x data_batch /\ magnitude_at_least_100 x).
  { intros x. rewrite Heq, List.filter_In, bool_decide_eq_true. reflexivity. }
  split; [exact Heq|]. split; [exact Hin|]. split.
  - intros z. rewrite Hin. simpl. split; intros [Hz Hmag]; (split; [exact Hz|lia]).
  - intros b Hb. apply Hin in Hb as [_ Hmag]. destruct b; simpl in Hmag; lia.
Qed.

(** X2: filtering is idempotent: for every class and criterion, filtering
    the result of [filter_data] again with the same criterion changes
    nothing. *)
Theorem filter_data_idempotent (stream : DataStream.t) (data_batch : list pyval)
  (criteria : option string) :
  filter_data stream (filter_data stream data_batch criteria) criteria =
  filter_data stream data_batch criteria.
Proof.
  unfold filter_data, SensorStream.filter_data, TransactionStream.filter_data,
    EventStream.filter_data.
  destruct (DataStream.class_of stream), (is_high_priority criteria);
    try reflexivity; apply list_filter_idem.
Qed.

(** X3: [filter_data] never adds or reorders: for every class and criterion
    the result is a sublist of the batch, so it is no longer than it. *)
Theorem filter_data_sublist (stream : DataStream.t) (data_batch : list pyval)
  (criteria : option string) :
  sublist (filter_data stream data_batch criteria) data_batch /\
  (length (filter_data stream data_batch criteria) <= length data_batch)%nat.
Proof.
  assert (Hsub : sublist (filter_data stream data_batch criteria) data_batch).
  { unfold filter_data, SensorStream.filter_data, TransactionStream.filter_data,
      EventStream.filter_data.
    destruct (DataStream.class_of stream), (is_high_priority criteria);
      try reflexivity; apply list_filter_sublist. }
  split; [exact Hsub|]. apply sublist_length. exact Hsub.
Qed.

(** X4: under "High-priority" only items of the kind the class validates
    survive: numbers for a sensor or transaction stream, strings for an
    event stream. *)
Theorem high_priority_keeps_accepted (stream : DataStream.t)
  (data_batch : list pyval) :
  Forall (fun x => accepted_by (DataStream.class_of stream) x = true)
    (filter_data stream data_batch (Some "High-priority")).
Proof.
  unfold filter_data, SensorStream.filter_data, TransactionStream.filter_data,
    EventStream.filter_data. simpl.
  destruct (DataStream.class_of stream); simpl;
    eapply Forall_impl; try apply list_filter_forall; simpl; intros x Hx.
  - unfold SensorStream.high_priority in Hx. destruct x; simpl in *; congruence.
  - unfold TransactionStream.high_priority in Hx. destruct x; simpl in *; congruence.
  - destruct x; simpl in *; congruence.
Qed.

Lemma valid_items_idem (data_batch : list pyval) :
  valid_items (valid_items data_batch) = valid_items data_batch.
Proof. apply list_filter_idem. Qed.

(** X5: [TransactionStream.process_batch] ignores the items that are not
    numbers: the result for a batch is the result for its numeric items
    alone. *)
Theorem transaction_ignores_invalid_items (data_batch : list pyval) :
  TransactionStream.process_batch data_batch =
  TransactionStream.process_batch (valid_items data_batch).
Proof.
  unfold TransactionStream.process_batch, TransactionStream.process_batch_try.
  fold (valid_items data_batch). fold (valid_items (valid_items data_batch)).
  rewrite valid_items_idem. reflexivity.
Qed.

(** X6: when a batch has at least one numeric item,
    [SensorStream.process_batch] ignores the other items; when a batch is
    not empty and has none, the result is not that of the empty batch its
    numeric items form. *)
Theorem sensor_ignores_invalid_items (data_batch : list pyval) :
  (valid_items data_batch <> [] ->
   SensorStream.process_batch data_batch =
   SensorStream.process_batch (valid_items data_batch)) /\
  (data_batch <> [] -> valid_items data_batch = [] ->
   SensorStream.process_batch data_batch = "No valid numeric data" /\
   SensorStream.process_batch (valid_items data_batch) = "No data processed").
Proof.
  split.
  - intros Hsome.
    unfold SensorStream.process_batch, SensorStream.process_batch_try.
    destruct data_batch as [|x rest]; [reflexivity|].
    fold (valid_items (x :: rest)).
    destruct (valid_items (x :: rest)) as [|y valid] eqn:Hvalid; [contradiction|].
    fold (valid_items (y :: valid)).
    rewrite <- Hvalid, valid_items_idem. reflexivity.
  - intros Hnonempty Hnone. rewrite Hnone. split; [|reflexivity].
    rewrite sensor_result_no_data by assumption.
    destruct data_batch; [contradiction|reflexivity].
Qed.

(** X7: on a batch without float items that holds at least one integer,
    [SensorStream.process_batch] reports the number of integers and their
    exact sum divided by that number; a quotient out of the float range is
    reported as an error text, not raised. *)
Theorem sensor_mean_of_integers (data_batch : list pyval) :
  existsb is_float data_batch = false ->
  int_values data_batch <> [] ->
  SensorStream.process_batch data_batch =
    match int_truediv (signed_sum (int_values data_batch))
                      (Z.of_nat (length (int_values data_batch))) with
    | Some avg =>
        "Sensor data: " +:+ int_str (Z.of_nat (length (int_values data_batch))) +:+
        " readings processed, avg temp: " +:+ float_format_1f avg +:+ "°C"
    | None =>
        "Error processing sensor batch: integer division result too large for a float"
    end.
Proof.
  intros Hnofloat Hsome.
  pose proof (valid_items_length_ints data_batch Hnofloat) as Hlen.
  assert (Hcount : (Z.of_nat (length (int_values data_batch)) =? 0) = false).
  { apply Z.eqb_neq. destruct (int_values data_batch); [contradiction|].
    simpl length. lia. }
  unfold SensorStream.process_batch, SensorStream.process_batch_try.
  destruct data_batch as [|x rest]; [contradiction Hsome; reflexivity|].
  fold (valid_items (x :: rest)). cbv zeta. rewrite Hlen, Hcount.
  unfold py_sum. rewrite sum_from_ints by assumption. rewrite Z.add_0_l.
  set (count := Z.of_nat (length (int_values (x :: rest)))) in *.
  set (total := signed_sum (int_values (x :: rest))).
  cbn [Exc.bind num_truediv]. rewrite Hcount.
  destruct (int_truediv total count); reflexivity.
Qed.

Lemma dispatched_app (streams more : list DataStream.t)
  (data_map : gmap string (list pyval)) :
  dispatched (streams ++ more) data_map =
  (dispatched streams data_map ++ dispatched more data_map)%list.
Proof.
  induction streams as [|stream rest IH]; [reflexivity|].
  rewrite <- app_comm_cons, !dispatched_cons, IH.
  destruct (data_map !! DataStream.stream_id stream); reflexivity.
Qed.

Lemma dispatched_length (streams : list DataStream.t)
  (data_map : gmap string (list pyval)) :
  (length (dispatched streams data_map) <= length streams)%nat.
Proof.
  induction streams as [|stream rest IH]; [reflexivity|].
  rewrite dispatched_cons.
  destruct (data_map !! DataStream.stream_id stream); simpl; lia.
Qed.

Lemma dispatched_empty (streams : list DataStream.t) :
  dispatched streams ∅ = [].
Proof.
  induction streams as [|stream rest IH]; [reflexivity|].
  rewrite dispatched_cons, lookup_empty. exact IH.
Qed.

(** X8: a stream added with [add_stream] is served last: processing after
    the addition prints what was printed before it, followed by the new
    stream's result when the data map has a batch under its identifier. *)
Theorem add_stream_is_served_last (self : StreamProcessor.t)
  (stream : DataStream.t) (data_map : gmap string (list pyval)) :
  StreamProcessor.process_streams (StreamProcessor.add_stream self stream) data_map =
  ((Io.stdout (StreamProcessor.process_streams self data_map) ++
    match data_map !! DataStream.stream_id stream with
    | Some data => [process_batch stream data]
    | None => []
    end)%list,
   inr tt).
Proof.
  unfold StreamProcessor.process_streams, StreamProcessor.add_stream.
  cbn [StreamProcessor.streams].
  rewrite !process_streams_loop_dispatched, dispatched_app, dispatched_cons.
  destruct (data_map !! DataStream.stream_id stream); reflexivity.
Qed.

(** X9: [process_streams] prints at most one result per registered stream,
    and nothing at all for an empty data map or an empty processor. *)
Theorem process_streams_output_bound (self : StreamProcessor.t)
  (data_map : gmap string (list pyval)) :
  (length (Io.stdout (StreamProcessor.process_streams self data_map)) <=
   length (StreamProcessor.streams self))%nat /\
  StreamProcessor.process_streams self ∅ = ([], inr tt) /\
  StreamProcessor.process_streams StreamProcessor.new data_map = ([], inr tt).
Proof.
  unfold StreamProcessor.process_streams.
  rewrite !process_streams_loop_dispatched. simpl.
  split; [apply dispatched_length|]. split; [|reflexivity].
  rewrite dispatched_empty. reflexivity.
Qed.
End FurtherStreamProperties.

(** ** Further properties of the stages and the pipeline *)

Section FurtherPipelineProperties.
Context `{B : Builtins}.

Import ProcessingPipeline.

(** *** Splitting text *)

Lemma str_split_not_nil (sep : ascii) (text : string) :
  str_split sep text <> [].
Proof.
  destruct text as [|c text]; simpl; [discriminate|].
  destruct (Ascii.eqb c sep); [discriminate|].
  destruct (str_split sep text); discriminate.
Qed.

Lemma concat_cons_not_nil (sep field : string) (fields : list string) :
  fields <> [] ->
  String.concat sep (field :: fields) =
  field +:+ sep +:+ String.concat sep fields.
Proof. destruct fields; [contradiction|reflexivity]. Qed.

Lemma concat_cons_char (sep : string) (c : ascii) (field : string)
  (fields : list string) :
  String.concat sep (String c field :: fields) =
  String c (String.concat sep (field :: fields)).
Proof. destruct fields; reflexivity. Qed.

(** Joining the fields of a split with the separator gives the text back. *)
Lemma str_split_join (sep : ascii) (text : string) :
  String.concat (String sep EmptyString) (str_split sep text) = text.
Proof.
  induction text as [|c text IH]; [reflexivity|].
  simpl. destruct (Ascii.eqb_spec c sep) as [->|Hne].
  - rewrite concat_cons_not_nil by apply str_split_not_nil.
    simpl. rewrite IH. reflexivity.
  - destruct (str_split sep text) as [|field fields] eqn:Hsplit.
    + destruct (str_split_not_nil _ _ Hsplit).
    + rewrite concat_cons_char, IH. reflexivity.
Qed.

Lemma str_contains_char_nil (c : ascii) :
  str_contains (String c EmptyString) EmptyString = false.
Proof. reflexivity. Qed.

Lemma str_contains_char_cons (c a : ascii) (text : string) :
  str_contains (String c EmptyString) (String a text) =
  Ascii.eqb a c || str_contains (String c EmptyString) text.
Proof.
  simpl. destruct (ascii_dec c a) as [->|Hne].
  - rewrite Ascii.eqb_refl. destruct text; reflexivity.
  - destruct (Ascii.eqb_spec a c) as [->|_]; [contradiction|reflexivity].
Qed.

(** No field of a split holds the separator. *)
Lemma str_split_fields_clean (sep : ascii) (text : string) :
  Forall (fun field => str_contains (String sep EmptyString) field = false)
    (str_split sep text).
Proof.
  induction text as [|c text IH].
  - repeat constructor.
  - simpl. destruct (Ascii.eqb c sep) eqn:Hc.
    + constructor; [reflexivity|exact IH].
    + destruct (str_split sep text) as [|field fields]; [repeat constructor; rewrite str_contains_char_cons, Hc; reflexivity|].
      inversion IH as [|? ? Hfield Hfields]; subst.
      constructor; [|exact Hfields].
      rewrite str_contains_char_cons, Hc. exact Hfield.
Qed.

Lemma str_contains_char_count (c : ascii) (text : string) :
  str_contains (String c EmptyString) text = true ->
  (1 <= count_char c text)%nat.
Proof.
  unfold count_char. induction text as [|a text IH]; [discriminate|].
  rewrite str_contains_char_cons. simpl. rewrite (Ascii.eqb_sym c a).
  destruct (Ascii.eqb a c); simpl; [lia|exact IH].
Qed.

(** *** The stages *)

Lemma transform_stage_text (text : string) :
  TransformStage.process (VStr text) =
  if str_contains "," text
  then (["Transform: Parsed and structured data"],
        inr (VList (map VStr (str_split ","%char text))))
  else (["Transform: Aggregated and filtered"], inr (VStr text)).
Proof.
  unfold TransformStage.process. destruct (str_contains "," text); reflexivity.
Qed.

(** X10: on a text that holds a comma, [TransformStage.process] returns the
    list of its fields: joined with commas they give the text back, none of
    them holds a comma, and there is one more field than commas, so at least
    two. *)
Theorem transform_splits_delimited_text (text : string) :
  str_contains "," text = true ->
  exists fields,
    TransformStage.process (VStr text) =
      (["Transform: Parsed and structured data"], inr (VList (map VStr fields))) /\
    String.concat "," fields = text /\
    Forall (fun field => str_contains "," field = false) fields /\
    length fields = S (count_char ","%char text) /\
    (2 <= length fields)%nat.
Proof.
  intros Hcomma. exists (str_split ","%char text).
  rewrite transform_stage_text, Hcomma.
  split; [reflexivity|]. split; [apply str_split_join|].
  split; [apply str_split_fields_clean|].
  assert (Hlen : length (str_split ","%char text) = S (count_char ","%char text))
    by apply str_split_length.
  split; [exact Hlen|]. rewrite Hlen.
  apply str_contains_char_count in Hcomma. lia.
Qed.

(** X11: on every value that is not a text holding a comma (a dict, a text
    without comma, anything else) [TransformStage.process] returns the value
    unchanged, printing at most one line. *)
Theorem transform_passes_other_data (data : pyval) :
  (forall text, data = VStr text -> str_contains "," text = false) ->
  exists out,
    TransformStage.process data = (out, inr data) /\ (length out <= 1)%nat.
Proof.
  intros Hplain.
  destruct data as [| | | |text| |]; try (eexists; split; [reflexivity|simpl; lia]).
  rewrite transform_stage_text, (Hplain text eq_refl).
  eexists; split; [reflexivity|simpl; lia].
Qed.



Lemma dict_get_absent (key : string) (fields : list (string * pyval)) :
  key_absent key fields -> dict_get fields key = VNone.
Proof.
  induction 1 as [|[k v] rest Hne _ IH]; [reflexivity|].
  simpl in *. destruct (String.eqb_spec k key); [contradiction|exact IH].
Qed.

(** X14: a dict that lacks the keys "value" and "unit" raises nothing in
    [OutputStage.process]: both are rendered as None. *)
Theorem output_stage_missing_keys (fields : list (string * pyval)) :
  key_absent "value" fields ->
  key_absent "unit" fields ->
  OutputStage.process (VDict fields) =
    Io.ret (VStr "Processed temperature reading: None°None (Normal range)").
Proof.
  intros Hvalue Hunit. unfold OutputStage.process.
  rewrite (dict_get_absent _ _ Hvalue), (dict_get_absent _ _ Hunit).
  reflexivity.
Qed.

(** *** The pipeline *)

(** X15: any text that contains "FAIL_TEST", not only the word itself,
    triggers the recovery in every pipeline of two or more stages that
    starts with the Input stage: the Input line is printed, then the two
    recovery lines, and no later stage runs. *)
Theorem sentinel_text_recovers (pipeline_id : string)
  (second : ProcessingStage.t) (rest : list ProcessingStage.t) (text : string) :
  str_contains "FAIL_TEST" text = true ->
  run_pipeline (ProcessingPipeline.mk pipeline_id (InputStage.new :: second :: rest))
    (VStr text) =
  ((Io.stdout (InputStage.process (VStr text)) ++
    recovery_lines 2 (ValueError "Invalid data format"))%list,
   inr recovery_result).
Proof.
  intros Hsentinel.
  destruct (input_stage_text text) as [out Hin].
  unfold run_pipeline. cbn [stages].
  rewrite run_from_cons, (turn_clean 1 InputStage.new _ out (VStr text));
    [|reflexivity|exact Hin].
  unfold Io.bind at 1. rewrite run_from_cons.
  rewrite (turn_fault_injected (1 + 1) second (VStr text))
    by (unfold fault_injected; simpl; exact Hsentinel).
  rewrite Hin. reflexivity.
Qed.

(** X16: the fault is tied to stage number 2: a pipeline of a single stage
    returns what its stage returns for every input, the sentinel included,
    and a pipeline without stages returns its input. *)
Theorem single_stage_never_injects (pipeline_id : string)
  (stage : ProcessingStage.t) (data : pyval) (out : list string)
  (result : pyval) :
  ProcessingStage.process stage data = (out, inr result) ->
  run_pipeline (ProcessingPipeline.mk pipeline_id [stage]) data = (out, inr result) /\
  run_pipeline (ProcessingPipeline.new pipeline_id) data = ([], inr data).
Proof.
  intros Hstage. split; [|reflexivity].
  unfold run_pipeline. cbn [stages].
  rewrite run_from_cons, (turn_clean 1 stage data out result);
    [|reflexivity|exact Hstage].
  unfold Io.bind. simpl. rewrite app_nil_r. reflexivity.
Qed.

(** X17: a stage added with [add_stage] runs last, on the value the stages
    before it returned: when those run clean and the new stage returns, the
    pipeline prints their lines followed by its lines and returns its
    result. *)
Theorem add_stage_runs_last (self : ProcessingPipeline.t)
  (stage : ProcessingStage.t) (data current result : pyval)
  (out out' : list string) :
  clean_run 1 (stages self) data out current ->
  fault_injected (1 + Z.of_nat (length (stages self))) current = false ->
  ProcessingStage.process stage current = (out', inr result) ->
  run_pipeline (add_stage self stage) data = ((out ++ out')%list, inr result).
Proof.
  intros Hclean Hfault Hstage.
  unfold run_pipeline, add_stage. cbn [stages].
  rewrite (run_from_after_clean _ _ _ _ _ _ Hclean), run_from_cons.
  rewrite (turn_clean _ _ _ _ _ Hfault Hstage).
  unfold Io.bind. simpl. rewrite app_nil_r. reflexivity.
Qed.

(** X18: what the three-stage pipeline returns for a text without the
    sentinel: with commas, the number of commas minus one as the count of
    actions; without a comma, one fixed summary whatever the text says. *)
Theorem three_stages_on_text (pipeline_id : string) (text : string) :
  str_contains "FAIL_TEST" text = false ->
  snd (run_pipeline (three_stage_pipeline pipeline_id) (VStr text)) =
  inr (VStr (if str_contains "," text
             then "User activity logged: " +:+
                  int_str (Z.of_nat (count_char ","%char text) - 1) +:+
                  " actions processed"
             else "Stream summary: 5 readings, avg: 22.1°C")).
Proof.
  intros Hplain.
  destruct (input_stage_text text) as [out1 Hin].
  unfold run_pipeline, three_stage_pipeline. cbn [stages add_stage new app].
  rewrite run_from_cons, (turn_clean 1 InputStage.new _ out1 (VStr text));
    [|reflexivity|exact Hin].
  unfold Io.bind at 1. rewrite run_from_cons.
  destruct (str_contains "," text) eqn:Hcomma.
  - rewrite (turn_clean (1 + 1) TransformStage.new (VStr text)
               ["Transform: Parsed and structured data"]
               (VList (map VStr (str_split ","%char text))));
      [|unfold fault_injected; simpl; exact Hplain
       |cbn [ProcessingStage.process TransformStage.new];
        rewrite transform_stage_text, Hcomma; reflexivity].
    simpl. rewrite length_map, str_split_length.
    unfold count_char. do 3 f_equal. f_equal. f_equal. lia.
  - rewrite (turn_clean (1 + 1) TransformStage.new (VStr text)
               ["Transform: Aggregated and filtered"] (VStr text));
      [|unfold fault_injected; simpl; exact Hplain
       |cbn [ProcessingStage.process TransformStage.new];
        rewrite transform_stage_text, Hcomma; reflexivity].
    reflexivity.
Qed.

(** X19: registering a pipeline makes it the one found under its
    identifier, leaves every other identifier as it was, and a later
    registration under the same identifier replaces the earlier one. *)
Theorem register_pipeline_lookup (self : NexusManager.t)
  (pipeline : ProcessingPipeline.t) :
  NexusManager.pipelines (NexusManager.register_pipeline self pipeline)
    !! pipeline_id pipeline = Some pipeline /\
  (forall other,
     other <> pipeline_id pipeline ->
     NexusManager.pipelines (NexusManager.register_pipeline self pipeline) !! other =
     NexusManager.pipelines self !! other) /\
  (forall newer,
     pipeline_id newer = pipeline_id pipeline ->
     NexusManager.register_pipeline
       (NexusManager.register_pipeline self pipeline) newer =
     NexusManager.register_pipeline self newer).
Proof.
  unfold NexusManager.register_pipeline. cbn [NexusManager.pipelines].
  split; [apply lookup_insert_eq|]. split.
  - intros other Hother. apply lookup_insert_ne. congruence.
  - intros newer Hsame. rewrite Hsame, insert_insert_eq. reflexivity.
Qed.
End FurtherPipelineProperties.

(** ** Properties of the processors of ex0 *)

Section ProcessorProperties.
Context `{B : Builtins}.
Variable str_strip : string -> string.

(** Adding numbers raises nothing but the overflow of a conversion. *)
Lemma sum_from_numeric_raises (items : list pyval) : forall acc e,
  forallb isinstance_num items = true ->
  sum_from acc items = inl e -> e = int_too_large.
Proof.
  induction items as [|x rest IH]; intros acc e Hnum Hsum; [discriminate|].
  simpl in Hnum. apply andb_true_iff in Hnum as [Hx Hrest].
  simpl in Hsum.
  destruct (as_num x) as [n|] eqn:Hn; [|destruct x; discriminate].
  destruct (num_add acc n) as [e'|acc'] eqn:Hadd.
  - injection Hsum as <-. unfold num_add in Hadd.
    destruct acc, n; try discriminate;
      destruct (float_of_int _); congruence.
  - eapply IH; eassumption.
Qed.

Lemma num_truediv_raises (total : num) (count : Z) (e : Exception) :
  count <> 0 ->
  num_truediv total count = inl e -> exc_class e = "OverflowError".
Proof.
  intros Hcount. apply Z.eqb_neq in Hcount. unfold num_truediv.
  destruct total as [t|f]; rewrite ?Hcount.
  - destruct (int_truediv t count); [discriminate|]. intros [= <-]. reflexivity.
  - destruct (float_of_int count); rewrite ?Hcount; [discriminate|].
    intros [= <-]. reflexivity.
Qed.

(** X20: [NumericProcessor.process] answers "Invalid data" to anything that
    is not a list of numbers, handles the empty list without dividing, and
    lets no exception escape other than an OverflowError of the float
    arithmetic: never a division by zero, never a type error. *)
Theorem numeric_process_failures (data : pyval) :
  (NumericProcessor.validate data = false ->
   NumericProcessor.process data = inr "Invalid data") /\
  (forall e, NumericProcessor.process data = inl e ->
             exc_class e = "OverflowError") /\
  NumericProcessor.process (VList []) =
    inr ("Processed 0 numeric values, sum=0, avg=0.0" +:+ newline).
Proof.
  split; [|split; [|reflexivity]].
  - intros Hinvalid. unfold NumericProcessor.process. rewrite Hinvalid. reflexivity.
  - intros e. unfold NumericProcessor.process.
    destruct (NumericProcessor.validate data) eqn:Hvalid; [|discriminate].
    destruct data as [| | | | |items|]; try discriminate Hvalid.
    simpl in Hvalid. cbn [negb]. cbv zeta. unfold py_sum.
    destruct (sum_from (NInt 0) items) as [e'|total] eqn:Hsum.
    + intros [= <-]. rewrite (sum_from_numeric_raises _ _ _ Hvalid Hsum). reflexivity.
    + cbn [Exc.bind]. destruct (Z.of_nat (length items) >? 0) eqn:Hcount.
      * destruct (num_truediv total (Z.of_nat (length items))) as [e'|avg] eqn:Hdiv.
        -- intros [= <-]. eapply num_truediv_raises; [|exact Hdiv]. lia.
        -- discriminate.
      * discriminate.
Qed.

(** X21: on a list of integers that is not empty,
    [NumericProcessor.process] reports their number, their exact sum and the
    quotient of the two; a quotient out of the float range is raised as an
    OverflowError. *)
Theorem numeric_process_integers (items : list pyval) :
  existsb is_float items = false ->
  forallb isinstance_num items = true ->
  items <> [] ->
  NumericProcessor.process (VList items) =
    match int_truediv (signed_sum (int_values items)) (Z.of_nat (length items)) with
    | Some avg =>
        inr ("Processed " +:+ int_str (Z.of_nat (length items)) +:+
             " numeric values, sum=" +:+ int_str (signed_sum (int_values items)) +:+
             ", avg=" +:+ float_repr avg +:+ newline)
    | None => inl (OverflowError "integer division result too large for a float")
    end.
Proof.
  intros Hnofloat Hnum Hsome.
  assert (Hvalid : valid_items items = items).
  { unfold valid_items. clear Hnofloat Hsome.
    induction items as [|x rest IH]; [reflexivity|].
    simpl in *. apply andb_true_iff in Hnum as [-> Hrest].
    rewrite IH by assumption. reflexivity. }
  assert (Hpos : (Z.of_nat (length items) >? 0) = true).
  { destruct items; [contradiction|]. simpl length. apply Z.gtb_lt. lia. }
  assert (Hnz : (Z.of_nat (length items) =? 0) = false).
  { apply Z.eqb_neq. apply Z.gtb_lt in Hpos. lia. }
  unfold NumericProcessor.process. cbn [NumericProcessor.validate].
  rewrite Hnum. cbn [negb]. cbv zeta. rewrite Hpos.
  unfold py_sum. rewrite <- Hvalid at 1.
  rewrite sum_from_ints by assumption. rewrite Z.add_0_l.
  set (count := Z.of_nat (length items)) in *.
  set (total := signed_sum (int_values items)).
  cbn [Exc.bind num_truediv]. rewrite Hnz.
  destruct (int_truediv total count); reflexivity.
Qed.

Lemma str_split_once_colon (sep : ascii) (text : string) :
  str_contains (String sep EmptyString) text = true ->
  exists before after,
    str_split_once sep text = [before; after] /\
    text = before +:+ String sep after /\
    str_contains (String sep EmptyString) before = false.
Proof.
  induction text as [|c text IH]; [discriminate|].
  rewrite str_contains_char_cons. simpl.
  destruct (Ascii.eqb_spec c sep) as [->|Hne]; simpl.
  - intros _. exists EmptyString, text. auto.
  - intros Hrest. destruct (IH Hrest) as (before & after & Hsplit & Htext & Hclean).
    exists (String c before), after. rewrite Hsplit, Htext.
    split; [reflexivity|]. split; [reflexivity|].
    rewrite str_contains_char_cons, Hclean.
    destruct (Ascii.eqb_spec c sep); [contradiction|reflexivity].
Qed.

(** X22: [LogProcessor.process] never raises.  Data that is not a text with
    a colon gets "Invalid data"; a text with a colon is cut at its first
    colon, so the second part that is indexed always exists, and the line
    names the stripped level and message, with ALERT when the level contains
    "ERROR" and INFO otherwise. *)
Theorem log_process_splits_at_first_colon (data : pyval) :
  (exists line, LogProcessor.process str_strip data = inr line) /\
  (LogProcessor.validate data = false ->
   LogProcessor.process str_strip data = inr "Invalid data") /\
  (LogProcessor.validate data = true ->
   exists level message,
     data = VStr (level +:+ ":" +:+ message) /\
     str_contains ":" level = false /\
     LogProcessor.process str_strip data =
       inr ("[" +:+
            (if str_contains "ERROR" (str_strip level) then "ALERT" else "INFO") +:+
            "] " +:+ str_strip level +:+ " level detected: " +:+
            str_strip message +:+ newline)).
Proof.
  assert (Hvalid : LogProcessor.validate data = true ->
   exists level message,
     data = VStr (level +:+ ":" +:+ message) /\
     str_contains ":" level = false /\
     LogProcessor.process str_strip data =
       inr ("[" +:+
            (if str_contains "ERROR" (str_strip level) then "ALERT" else "INFO") +:+
            "] " +:+ str_strip level +:+ " level detected: " +:+
            str_strip message +:+ newline)).
  { intros Hv. unfold LogProcessor.process. rewrite Hv. cbn [negb].
    destruct data as [| | | |text| |]; try discriminate Hv.
    simpl in Hv. destruct (str_split_once_colon ":"%char text Hv)
      as (level & message & Hsplit & Htext & Hclean).
    exists level, message. split; [rewrite Htext; reflexivity|].
    split; [exact Hclean|]. cbv zeta. rewrite Hsplit. reflexivity. }
  assert (Hinvalid : LogProcessor.validate data = false ->
                     LogProcessor.process str_strip data = inr "Invalid data").
  { intros Hv. unfold LogProcessor.process. rewrite Hv. reflexivity. }
  split; [|split; assumption].
  destruct (LogProcessor.validate data) eqn:Hv.
  - destruct (Hvalid eq_refl) as (level & message & _ & _ & Hline). eauto.
  - eauto.
Qed.
End ProcessorProperties.

(** ** The further properties at concrete inputs *)

Lemma sensor_ignores_invalid_items_witness :
  SensorStream.process_batch [VStr "n/a"; VInt 3] =
  SensorStream.process_batch (valid_items [VStr "n/a"; VInt 3]).
Proof.
  apply (proj1 (sensor_ignores_invalid_items [VStr "n/a"; VInt 3])).
  discriminate.
Defined.

Lemma sensor_mean_of_integers_witness :
  SensorStream.process_batch [VInt 20; VStr "n/a"; VInt 24] =
    match int_truediv 44 2 with
    | Some avg =>
        "Sensor data: 2 readings processed, avg temp: " +:+
        float_format_1f avg +:+ "°C"
    | None =>
        "Error processing sensor batch: integer division result too large for a float"
    end.
Proof.
  apply (sensor_mean_of_integers [VInt 20; VStr "n/a"; VInt 24]).
  - reflexivity.
  - discriminate.
Defined.

Lemma transform_splits_delimited_text_witness :
  exists fields,
    TransformStage.process (VStr "user,action,timestamp") =
      (["Transform: Parsed and structured data"], inr (VList (map VStr fields))) /\
    String.concat "," fields = "user,action,timestamp" /\
    Forall (fun field => str_contains "," field = false) fields /\
    length fields = 3%nat /\
    (2 <= length fields)%nat.
Proof.
  apply (transform_splits_delimited_text "user,action,timestamp").
  reflexivity.
Defined.

Lemma transform_passes_other_data_witness :
  exists out,
    TransformStage.process (VStr "Real-time sensor stream") =
      (out, inr (VStr "Real-time sensor stream")) /\
    (length out <= 1)%nat.
Proof.
  apply (transform_passes_other_data (VStr "Real-time sensor stream")).
  intros text Htext. injection Htext as <-. reflexivity.
Defined.

Lemma output_stage_missing_keys_witness :
  OutputStage.process (VDict [("sensor", VStr "temp")]) =
    Io.ret (VStr "Processed temperature reading: None°None (Normal range)").
Proof.
  apply (output_stage_missing_keys [("sensor", VStr "temp")]).
  - repeat constructor. discriminate.
  - repeat constructor. discriminate.
Defined.

Lemma sentinel_text_recovers_witness :
  ProcessingPipeline.run_pipeline
    (ProcessingPipeline.mk "PIPE_X" [InputStage.new; OutputStage.new])
    (VStr "job 7: FAIL_TEST again") =
  (["Input: job 7: FAIL_TEST again";
    "Error detected in Stage 2: Invalid data format";
    "Recovery initiated: Switching to backup processor"],
   inr recovery_result).
Proof.
  apply (sentinel_text_recovers "PIPE_X" OutputStage.new []
           "job 7: FAIL_TEST again").
  reflexivity.
Defined.

Lemma single_stage_never_injects_witness :
  ProcessingPipeline.run_pipeline
    (ProcessingPipeline.mk "PIPE_X" [InputStage.new]) (VStr "FAIL_TEST") =
    (["Input: FAIL_TEST"], inr (VStr "FAIL_TEST")) /\
  ProcessingPipeline.run_pipeline (ProcessingPipeline.new "PIPE_X")
    (VStr "FAIL_TEST") = ([], inr (VStr "FAIL_TEST")).
Proof.
  apply (single_stage_never_injects "PIPE_X" InputStage.new (VStr "FAIL_TEST")
           ["Input: FAIL_TEST"] (VStr "FAIL_TEST")).
  reflexivity.
Defined.

Lemma add_stage_runs_last_witness :
  ProcessingPipeline.run_pipeline
    (ProcessingPipeline.add_stage
       (ProcessingPipeline.mk "PIPE_X" [InputStage.new]) OutputStage.new)
    (VInt 5) =
  ([], inr (VStr "5")).
Proof.
  apply (add_stage_runs_last (ProcessingPipeline.mk "PIPE_X" [InputStage.new])
           OutputStage.new (VInt 5) (VInt 5) (VStr "5") [] []).
  - apply (clean_step 1 InputStage.new [] (VInt 5) [] (VInt 5) [] (VInt 5)).
    + reflexivity.
    + reflexivity.
    + apply clean_done.
  - reflexivity.
  - reflexivity.
Defined.

Lemma three_stages_on_text_witness :
  snd (ProcessingPipeline.run_pipeline (three_stage_pipeline "PIPE_CSV")
         (VStr "a,b,c,d")) =
  inr (VStr "User activity logged: 2 actions processed").
Proof.
  apply (three_stages_on_text "PIPE_CSV" "a,b,c,d").
  reflexivity.
Defined.

Lemma register_pipeline_lookup_witness :
  NexusManager.pipelines
    (NexusManager.register_pipeline (NexusManager.mk ∅)
       (three_stage_pipeline "PIPE_JSON")) !! "PIPE_CSV" =
  NexusManager.pipelines (NexusManager.mk ∅) !! "PIPE_CSV".
Proof.
  apply (proj1 (proj2 (register_pipeline_lookup (NexusManager.mk ∅)
                         (three_stage_pipeline "PIPE_JSON")))).
  discriminate.
Defined.

Lemma numeric_process_failures_witness :
  NumericProcessor.process (VList [VInt 1; VStr "two"]) = inr "Invalid data".
Proof.
  apply (proj1 (numeric_process_failures (VList [VInt 1; VStr "two"]))).
  reflexivity.
Defined.

Lemma numeric_process_integers_witness :
  NumericProcessor.process (VList [VInt 1; VInt 2; VInt 3]) =
    match int_truediv 6 3 with
    | Some avg =>
        inr ("Processed 3 numeric values, sum=6, avg=" +:+ float_repr avg +:+ newline)
    | None => inl (OverflowError "integer division result too large for a float")
    end.
Proof.
  apply (numeric_process_integers [VInt 1; VInt 2; VInt 3]).
  - reflexivity.
  - reflexivity.
  - discriminate.
Defined.

Lemma log_process_splits_at_first_colon_witness :
  exists level message,
    VStr "ERROR: Connection timeout" = VStr (level +:+ ":" +:+ message) /\
    str_contains ":" level = false /\
    LogProcessor.process ascii_strip (VStr "ERROR: Connection timeout") =
      inr ("[" +:+
           (if str_contains "ERROR" (ascii_strip level) then "ALERT" else "INFO") +:+
           "] " +:+ ascii_strip level +:+ " level detected: " +:+
           ascii_strip message +:+ newline).
Proof.
  apply (proj2 (proj2 (log_process_splits_at_first_colon ascii_strip
                         (VStr "ERROR: Connection timeout")))).
  reflexivity.
Defined.

(** ** Events, the sentinel after a first stage, and the adapters *)

Section FurtherCompositions.
Context `{B : Builtins}.

Import ProcessingPipeline.

Lemma event_errors_are_strings (data_batch : list pyval) :
  (length (List.filter EventStream.is_error data_batch) <=
   length (List.filter isinstance_str data_batch))%nat.
Proof.
  induction data_batch as [|x rest IH]; [reflexivity|].
  simpl. destruct x; simpl; try exact IH.
  destruct (str_contains "error" (str_lower s)); simpl; lia.
Qed.

(** X23: [EventStream.process_batch] counts every item of the batch as an
    event, whatever its type, and reports as errors exactly the items that
    [EventStream.filter_data] keeps under "High-priority"; only strings can
    be among them. *)
Theorem event_summary_matches_filter (data_batch : list pyval) :
  EventStream.process_batch data_batch =
    "Event data: " +:+ int_str (Z.of_nat (length data_batch)) +:+ " events, " +:+
    int_str (Z.of_nat (length (EventStream.filter_data data_batch
                                 (Some "High-priority")))) +:+
    " error detected" /\
  (length (EventStream.filter_data data_batch (Some "High-priority")) <=
   length (List.filter isinstance_str data_batch))%nat /\
  (length (List.filter isinstance_str data_batch) <= length data_batch)%nat.
Proof.
  split; [reflexivity|]. split.
  - apply event_errors_are_strings.
  - apply sublist_length, list_filter_sublist.
Qed.

(** X24: the sentinel is looked for in what the first stage returned, not
    in the input of the pipeline: when the first stage returns a text that
    contains "FAIL_TEST" the run recovers at stage 2, and when it returns
    anything else the second stage runs on it, even if the input held the
    sentinel. *)
Theorem sentinel_checked_after_first_stage (pipeline_id : string)
  (first second : ProcessingStage.t) (data current : pyval) (out : list string) :
  ProcessingStage.process first data = (out, inr current) ->
  (is_fail_test current = true ->
   forall rest,
     run_pipeline (ProcessingPipeline.mk pipeline_id (first :: second :: rest)) data =
     ((out ++ recovery_lines 2 (ValueError "Invalid data format"))%list,
      inr recovery_result)) /\
  (is_fail_test current = false ->
   forall out' result,
     ProcessingStage.process second current = (out', inr result) ->
     run_pipeline (ProcessingPipeline.mk pipeline_id [first; second]) data =
     ((out ++ out')%list, inr result)).
Proof.
  intros Hfirst. split.
  - intros Hsentinel rest. unfold run_pipeline. cbn [stages].
    rewrite run_from_cons, (turn_clean 1 first data out current);
      [|reflexivity|exact Hfirst].
    unfold Io.bind at 1. rewrite run_from_cons.
    rewrite (turn_fault_injected (1 + 1) second current)
      by (unfold fault_injected; simpl; exact Hsentinel).
    reflexivity.
  - intros Hplain out' result Hsecond. unfold run_pipeline. cbn [stages].
    rewrite run_from_cons, (turn_clean 1 first data out current);
      [|reflexivity|exact Hfirst].
    unfold Io.bind at 1. rewrite run_from_cons.
    rewrite (turn_clean (1 + 1) second current out' result);
      [|unfold fault_injected; simpl; exact Hplain|exact Hsecond].
    unfold Io.bind. simpl. rewrite app_nil_r. reflexivity.
Qed.

(** X25: the three adapters differ only in the line they print first: for
    the same pipeline and data each prints its line, then what
    [run_pipeline] prints, and ends as [run_pipeline] ends, whether that
    returns or raises; with stages that raise ordinary exceptions only,
    none of them raises. *)
Theorem adapters_share_run_pipeline (self : ProcessingPipeline.t) (data : pyval) :
  JSONAdapter.process self data =
    ("Processing JSON data through pipeline..." :: fst (run_pipeline self data),
     snd (run_pipeline self data)) /\
  CSVAdapter.process self data =
    ("Processing CSV data through same pipeline..." :: fst (run_pipeline self data),
     snd (run_pipeline self data)) /\
  StreamAdapter.process self data =
    ("Processing Stream data through same pipeline..." :: fst (run_pipeline self data),
     snd (run_pipeline self data)) /\
  (Forall raises_ordinary (stages self) ->
   exists out result,
     run_pipeline self data = (out, inr result) /\
     JSONAdapter.process self data =
       ("Processing JSON data through pipeline..." :: out, inr result) /\
     CSVAdapter.process self data =
       ("Processing CSV data through same pipeline..." :: out, inr result) /\
     StreamAdapter.process self data =
       ("Processing Stream data through same pipeline..." :: out, inr result)).
Proof.
  assert (Hshape : forall line : string,
    Io.bind (Io.print line) (fun _ => run_pipeline self data) =
    (line :: fst (run_pipeline self data), snd (run_pipeline self data))).
  { intros line. unfold Io.bind, Io.print.
    destruct (run_pipeline self data) as [out r]. reflexivity. }
  split; [apply Hshape|]. split; [apply Hshape|]. split; [apply Hshape|].
  intros Hordinary.
  destruct (run_from_outcome (stages self) 1 data Hordinary)
    as (out & result & Hrun & _).
  exists out, result.
  assert (Hrun' : run_pipeline self data = (out, inr result)) by exact Hrun.
  unfold JSONAdapter.process, CSVAdapter.process, StreamAdapter.process.
  rewrite !Hshape, Hrun'. auto.
Qed.
End FurtherCompositions.

Lemma sentinel_checked_after_first_stage_witness :
  ProcessingPipeline.run_pipeline
    (ProcessingPipeline.mk "PIPE_X" [TransformStage.new; OutputStage.new])
    (VStr "FAIL_TEST,retry") =
  (["Transform: Parsed and structured data"],
   inr (VStr "User activity logged: 0 actions processed")).
Proof.
  apply (proj2 (sentinel_checked_after_first_stage "PIPE_X"
                  TransformStage.new OutputStage.new (VStr "FAIL_TEST,retry")
                  (VList [VStr "FAIL_TEST"; VStr "retry"])
                  ["Transform: Parsed and structured data"] eq_refl)
               eq_refl [] (VStr "User activity logged: 0 actions processed")).
  reflexivity.
Defined.

Lemma adapters_share_run_pipeline_witness :
  exists out result,
    ProcessingPipeline.run_pipeline (three_stage_pipeline "PIPE_JSON")
      (VDict [("sensor", VStr "temp"); ("value", VInt 23); ("unit", VStr "C")]) =
      (out, inr result) /\
    JSONAdapter.process (three_stage_pipeline "PIPE_JSON")
      (VDict [("sensor", VStr "temp"); ("value", VInt 23); ("unit", VStr "C")]) =
      ("Processing JSON data through pipeline..." :: out, inr result) /\
    CSVAdapter.process (three_stage_pipeline "PIPE_JSON")
      (VDict [("sensor", VStr "temp"); ("value", VInt 23); ("unit", VStr "C")]) =
      ("Processing CSV data through same pipeline..." :: out, inr result) /\
    StreamAdapter.process (three_stage_pipeline "PIPE_JSON")
      (VDict [("sensor", VStr "temp"); ("value", VInt 23); ("unit", VStr "C")]) =
      ("Processing Stream data through same pipeline..." :: out, inr result).
Proof.
  apply (proj2 (proj2 (proj2 (adapters_share_run_pipeline
                                (three_stage_pipeline "PIPE_JSON")
                                (VDict [("sensor", VStr "temp");
                                        ("value", VInt 23);
                                        ("unit", VStr "C")]))))).
  exact script_stages_raise_ordinary.
Defined.


